(** * Allocation stages of [allocation.py]

    A shallow embedding of the allocation pipeline: the entry operation
    [allocation] with its date cleaning, the base classes [AllocationMixin]
    and [OneAllocationMixin], the constant stage [OneStaticAllocation] and
    the combinator [EqualWeight].

    The few pandas and Python operations the module calls are embedded next
    to it, each with a comment that says which behaviour is embedded:
    - a [pd.Timestamp] is its integer value (nanoseconds since the epoch);
      time zones and [NaT] are outside the model;
    - a [pd.Series] is the list of its rows in index order (an association
      list: pandas keeps row order and allows repeated index entries);
    - a weight is a binary64 float, as in Python;
    - a raised exception is the [Raise] branch of [result]. *)

From Stdlib Require Import ZArith List String Ascii Bool Lia.
From Stdlib Require Import Sorted Permutation.
From Stdlib Require Import Floats Uint63.
Import ListNotations.

Set Warnings "-inexact-float".
Local Open Scope string_scope.
Local Open Scope list_scope.
Local Open Scope Z_scope.

(** ** Exceptions and results *)

Inductive exn : Type :=
| NotImplementedError
| ValueError (msg : string)
| ParserError (text : string)
| ZeroDivisionError
| OtherError (tag : string).

Inductive result (A : Type) : Type :=
| Ok (a : A)
| Raise (e : exn).

Arguments Ok {A} a.
Arguments Raise {A} e.

Definition bind {A B : Type} (m : result A) (k : A -> result B) : result B :=
  match m with
  | Ok a => k a
  | Raise e => Raise e
  end.

Notation "x <- m ;; k" := (bind m (fun x => k))
  (at level 61, m at next level, right associativity).

(** Evaluation of [[f x for x in l]]: left to right, the first exception
    ends it. *)
Fixpoint list_comprehension {A B : Type} (f : A -> result B) (l : list A)
  : result (list B) :=
  match l with
  | [] => Ok []
  | x :: r => y <- f x ;; ys <- list_comprehension f r ;; Ok (y :: ys)
  end.

(** ** Python builtins on dates *)

Definition Timestamp : Type := Z.

(** [set(l)]: the distinct elements of [l].  Python fixes no iteration
    order for a set; the only use below sorts the set at once. *)
Definition py_set (l : list Timestamp) : list Timestamp := nodup Z.eq_dec l.

Fixpoint insort (x : Timestamp) (l : list Timestamp) : list Timestamp :=
  match l with
  | [] => [x]
  | y :: r => if x <=? y then x :: l else y :: insort x r
  end.

(** [sorted(l)]: the elements of [l] in ascending order. *)
Definition py_sorted (l : list Timestamp) : list Timestamp :=
  fold_right insort [] l.

(** A dict keeps insertion order; storing under a key that is already
    there replaces the value and leaves the key where it is. *)
Fixpoint dict_setitem {V : Type} (d : list (Timestamp * V)) (k : Timestamp) (v : V)
  : list (Timestamp * V) :=
  match d with
  | [] => [(k, v)]
  | (k', v') :: r =>
      if k' =? k then (k', v) :: r else (k', v') :: dict_setitem r k v
  end.

(** [{k: f(k) for k in keys}], started from the dict [acc]. *)
Fixpoint dict_comprehension {V : Type} (f : Timestamp -> result V)
  (keys : list Timestamp) (acc : list (Timestamp * V))
  : result (list (Timestamp * V)) :=
  match keys with
  | [] => Ok acc
  | k :: r => v <- f k ;; dict_comprehension f r (dict_setitem acc k v)
  end.

(** [1 / n] for a Python int [n]: true division, a float, and
    [ZeroDivisionError] at zero.  (Lengths stay far below 2^53, where the
    conversion of [n] is exact.) *)
Definition float_of_len (n : nat) : float :=
  PrimFloat.of_uint63 (Uint63.of_Z (Z.of_nat n)).

Definition one_over (n : nat) : float := PrimFloat.div 1%float (float_of_len n).

Definition py_one_div_len (n : nat) : result float :=
  match n with
  | O => Raise ZeroDivisionError
  | S _ => Ok (one_over n)
  end.

(** ** pandas values *)

Definition Asset : Type := string.

(** A Series with one index level: asset code to weight. *)
Definition Series : Type := list (Asset * float).

(** The dates are at the first level of the index and the series at the
    second level. *)
Definition IDX_LVL_DATE : nat := 0.
Definition IDX_LVL_SERIE : nat := 1.

(** A Series with the two index levels of the module: level
    [IDX_LVL_DATE] is the date, level [IDX_LVL_SERIE] the asset code. *)
Definition Row : Type := (Timestamp * Asset) * float.
Definition Table : Type := list Row.

Definition row_date (r : Row) : Timestamp := fst (fst r).
Definition row_asset (r : Row) : Asset := snd (fst r).
Definition row_weight (r : Row) : float := snd r.

(** The rows of date [d], in table order. *)
Definition rows_on (d : Timestamp) (t : Table) : Table :=
  filter (fun r => row_date r =? d) t.

(** The asset codes of date [d]. *)
Definition assets_on (d : Timestamp) (t : Table) : list Asset :=
  map row_asset (rows_on d t).

(** The asset-to-weight mapping of date [d]. *)
Definition mapping_on (d : Timestamp) (t : Table) : Series :=
  map (fun r => (row_asset r, row_weight r)) (rows_on d t).

Module pd.

(** The rows of a Series, with a key put in front of their index. *)
Definition tag_rows (kv : Timestamp * Series) : Table :=
  map (fun aw => ((fst kv, fst aw), snd aw)) (snd kv).

(** [pd.concat(d)] for a dict [d] of Series: the rows of each value in
    dict order, its key put in front of the index.  pandas refuses to
    concatenate nothing: [ValueError: No objects to concatenate]. *)
Definition concat (d : list (Timestamp * Series)) : result Table :=
  match d with
  | [] => Raise (ValueError "No objects to concatenate")
  | _ :: _ => Ok (flat_map tag_rows d)
  end.

(** [s.groupby(level=IDX_LVL_DATE)], the level being 0: one group for
    each distinct date of [s], the group keys ascending, each group the
    rows of its date in the order of [s]. *)
Definition groupby_level0 (s : Table) : list (Timestamp * Table) :=
  map (fun k => (k, rows_on k s)) (py_sorted (py_set (map row_date s))).

(** [.apply(f)]: [f] on each group in key order, the results put
    together.  When there is no group at all, pandas (the releases of the
    module's time) calls [f] once on the empty slice of the data,
    [f(data.iloc[:0])], so that an exception of [f] is not lost; what that
    call returns is dropped, what it raises is raised.  A row of the
    result is known by the date and the asset of the index [f] gave it;
    its date is the key of its group. *)
Definition apply (f : Table -> result Table) (groups : list (Timestamp * Table))
  : result Table :=
  parts <- list_comprehension (fun g => f (snd g)) groups ;;
  dummy <- match groups with
           | [] => f []
           | _ :: _ => Ok []
           end ;;
  Ok (List.concat parts).

End pd.

(** ** The stages *)

(** A stage is an object with the method [_allocation]; [allocation] is
    inherited from [AllocationMixin] by every stage and never overridden. *)
Record Stage : Type := { _allocation : list Timestamp -> result Table }.

(** A date as [allocation] receives it: a string or a [pd.Timestamp]. *)
Inductive DateLike : Type :=
| DStr (s : string)
| DTimestamp (t : Timestamp).

(** The argument of [allocation]: one date or a collection of dates. *)
Inductive DatesArg : Type :=
| Single (d : DateLike)
| Collection (l : list DateLike).

Definition AllocationMixin : Stage :=
  {| _allocation := fun dates => Raise NotImplementedError |}.

(** [OneAllocationMixin._allocation], over the [_one_allocation] of the
    class it is called on. *)
Definition OneAllocationMixin_allocation
  (_one_allocation : Timestamp -> result Series) (dates : list Timestamp)
  : result Table :=
  d <- dict_comprehension _one_allocation dates [] ;; pd.concat d.

Definition OneAllocationMixin_one_allocation (date : Timestamp) : result Series :=
  Raise NotImplementedError.

Definition OneAllocationMixin : Stage :=
  {| _allocation := OneAllocationMixin_allocation OneAllocationMixin_one_allocation |}.

Definition OneStaticAllocation_one_allocation (date : Timestamp) : result Series :=
  Ok [("a", 0.2%float); ("b", 0.8%float)].

Definition OneStaticAllocation : Stage :=
  {| _allocation := OneAllocationMixin_allocation OneStaticAllocation_one_allocation |}.

(** [_ew] of [EqualWeight._allocation]: a Series on the index of the
    group, every value [1 / len(group)]. *)
Definition _ew (group : Table) : result Table :=
  w <- py_one_div_len (List.length group) ;;
  Ok (map (fun r => (fst r, w)) group).

Section Entry.

(** [pd.to_datetime] on a string: a timestamp, or an exception when the
    string is no date. *)
Variable to_datetime : string -> result Timestamp.

Definition to_real_date (d : DateLike) : result Timestamp :=
  match d with
  | DStr s => to_datetime s
  | DTimestamp t => Ok t
  end.

(** The cleaning at the head of [AllocationMixin.allocation]: the value
    of [dates] when [_allocation] is called. *)
Definition clean_dates (dates : DatesArg) : result (list Timestamp) :=
  let dates :=
    match dates with
    | Single d => [d]
    | Collection l => l
    end in
  dates <- list_comprehension to_real_date dates ;;
  Ok (py_sorted (py_set dates)).

Definition allocation (self : Stage) (dates : DatesArg) : result Table :=
  dates <- clean_dates dates ;;
  _allocation self dates.

Definition EqualWeight_allocation (previous_step : Stage) (dates : list Timestamp)
  : result Table :=
  prev <- allocation previous_step (Collection (map DTimestamp dates)) ;;
  pd.apply _ew (pd.groupby_level0 prev).

Definition EqualWeight (previous_step : Stage) : Stage :=
  {| _allocation := EqualWeight_allocation previous_step |}.

End Entry.

(** ** [pd.to_datetime] on ISO calendar dates

    The part of [pd.to_datetime] the demo uses: a string [YYYY-MM-DD] is
    midnight of that day.  Any other string is refused here, so this
    parser is used for the concrete scenarios only; the general theorems
    hold for every parser. *)

Definition digit_of (c : ascii) : option Z :=
  let n := Z.of_nat (nat_of_ascii c) in
  if (48 <=? n) && (n <=? 57) then Some (n - 48) else None.

Fixpoint number_of (acc : Z) (cs : list ascii) : option Z :=
  match cs with
  | [] => Some acc
  | c :: r =>
      match digit_of c with
      | Some v => number_of (10 * acc + v) r
      | None => None
      end
  end.

Definition is_leap (y : Z) : bool :=
  ((y mod 4 =? 0) && negb (y mod 100 =? 0)) || (y mod 400 =? 0).

Definition days_in_month (y m : Z) : Z :=
  if m =? 2 then (if is_leap y then 29 else 28)
  else if (m =? 4) || (m =? 6) || (m =? 9) || (m =? 11) then 30
  else 31.

(** Days from 1970-01-01 to the civil date [y-m-d]. *)
Definition days_from_civil (y m d : Z) : Z :=
  let y' := if m <=? 2 then y - 1 else y in
  let era := y' / 400 in
  let yoe := y' - era * 400 in
  let mp := if m <=? 2 then m + 9 else m - 3 in
  let doy := (153 * mp + 2) / 5 + d - 1 in
  let doe := yoe * 365 + yoe / 4 - yoe / 100 + doy in
  era * 146097 + doe - 719468.

Definition nanoseconds_per_day : Z := 86400 * 1000000000.

Definition iso_to_datetime (s : string) : result Timestamp :=
  match list_ascii_of_string s with
  | [y1; y2; y3; y4; "-"%char; m1; m2; "-"%char; d1; d2] =>
      match number_of 0 [y1; y2; y3; y4], number_of 0 [m1; m2], number_of 0 [d1; d2] with
      | Some y, Some m, Some d =>
          if (1 <=? m) && (m <=? 12) && (1 <=? d) && (d <=? days_in_month y m)
          then Ok (days_from_civil y m d * nanoseconds_per_day)
          else Raise (ParserError s)
      | _, _, _ => Raise (ParserError s)
      end
  | _ => Raise (ParserError s)
  end.

(** The two dates of the demo. *)
Definition ts_2022_08_01 : Timestamp := 1659312000000000000.
Definition ts_2022_08_02 : Timestamp := 1659398400000000000.

(** ** Definitions used in the statements *)

(** The keys of a dict, in insertion order. *)
Definition dict_keys {V : Type} (d : list (Timestamp * V)) : list Timestamp :=
  map fst d.

(** Equality of dates as [allocation] receives them is decidable. *)
Definition DateLike_eq_dec (a b : DateLike) : {a = b} + {a <> b}.
Proof. decide equality; [apply string_dec|apply Z.eq_dec]. Defined.

(** The collection [l] with every repeated element dropped, the first
    occurrence kept ([seen] holds the elements met so far). *)
Fixpoint drop_seen (seen l : list DateLike) : list DateLike :=
  match l with
  | [] => []
  | x :: r =>
      if in_dec DateLike_eq_dec x seen then drop_seen seen r
      else x :: drop_seen (x :: seen) r
  end.

Definition without_duplicates (l : list DateLike) : list DateLike :=
  drop_seen [] l.

(** A timestamp that some element of [seen] denotes. *)
Definition denoted_by (to_datetime : string -> result Timestamp)
  (seen : list DateLike) (t : Timestamp) : Prop :=
  exists x, In x seen /\ to_real_date to_datetime x = Ok t.

(** The rows of a group with every weight replaced by [1 / len(group)]. *)
Definition equalised (group : Table) : Table :=
  map (fun r => (fst r, one_over (List.length group))) group.

(** The keys of the groups of [groupby(level=0)]. *)
Definition group_keys (t : Table) : list Timestamp :=
  py_sorted (py_set (map row_date t)).

(** The equal-weight table of [t]. *)
Definition equal_weight_table (t : Table) : Table :=
  flat_map (fun k => equalised (rows_on k t)) (group_keys t).

(** What [groupby(level=0).apply(_ew)] gives for the upstream table
    [prev]: with no row there is no group, [_ew] is tried on the empty
    table and its division fails; else the equal-weight table. *)
Definition equal_weight_result (prev : Table) : result Table :=
  match prev with
  | [] => Raise ZeroDivisionError
  | _ :: _ => Ok (equal_weight_table prev)
  end.

(** The rows of the constant stage for one date. *)
Definition static_rows (d : Timestamp) : Table :=
  [((d, "a"), 0.2%float); ((d, "b"), 0.8%float)].

(** An upstream stage that knows one asset on 2022-08-01 and nothing on
    any other date. *)
Definition one_day_stage : Stage :=
  {| _allocation := fun dates => Ok [((ts_2022_08_01, "a"), 0.3%float)] |}.

(** An upstream stage whose table is in date order, with one asset on
    the first day and two on the second. *)
Definition date_ordered_table : Table :=
  [ ((ts_2022_08_01, "a"), 0.6%float); ((ts_2022_08_02, "a"), 0.3%float);
    ((ts_2022_08_02, "b"), 0.7%float) ].

Definition date_ordered_stage : Stage :=
  {| _allocation := fun dates => Ok date_ordered_table |}.

(** An upstream stage that knows no asset on any date. *)
Definition no_data_stage : Stage :=
  {| _allocation := fun dates => Ok [] |}.

(** A single-date operation with two assets on 2022-08-01 and none on
    any other date. *)
Definition first_day_series (date : Timestamp) : Series :=
  if date =? ts_2022_08_01 then [("a", 0.2%float); ("b", 0.8%float)] else [].

(** An upstream stage whose computation fails. *)
Definition failing_stage : Stage :=
  {| _allocation := fun dates => Raise (OtherError "upstream") |}.

(** [demo], without the printing: the two tables it shows. *)
Definition demo : result Table * result Table :=
  let uv := OneStaticAllocation in
  let ew := EqualWeight iso_to_datetime uv in
  let dates := Collection [DStr "2022-08-01"; DStr "2022-08-02"] in
  (allocation iso_to_datetime uv dates, allocation iso_to_datetime ew dates).

(** A stage of a class that derives from [OneAllocationMixin] and
    overrides [_one_allocation] only. *)
Definition SingleDateStage (_one_allocation : Timestamp -> result Series) : Stage :=
  {| _allocation := OneAllocationMixin_allocation _one_allocation |}.

(** The index of a table: its (date, asset) keys in row order. *)
Definition index_of (t : Table) : list (Timestamp * Asset) := map fst t.

(** The timestamps a collection denotes, when every element is a date. *)
Definition real_dates (to_datetime : string -> result Timestamp)
  (l : list DateLike) : result (list Timestamp) :=
  list_comprehension (to_real_date to_datetime) l.

(** An upstream stage with the index of the constant stage and other
    weights. *)
Definition other_weights_stage : Stage :=
  {| _allocation := fun dates =>
       Ok (flat_map (fun d => [((d, "a"), 0.9%float); ((d, "b"), 0.1%float)]) dates) |}.

(** An upstream stage whose table is not in date order. *)
Definition unordered_stage : Stage :=
  {| _allocation := fun dates =>
       Ok [ ((ts_2022_08_02, "a"), 0.3%float); ((ts_2022_08_01, "a"), 0.6%float);
            ((ts_2022_08_02, "b"), 0.7%float) ] |}.

(** A single-date operation that knows 2022-08-01 only. *)
Definition only_first_day (date : Timestamp) : result Series :=
  if date =? ts_2022_08_01 then Ok [("a", 1.0%float)]
  else Raise (OtherError "no data").

(** The equal-weight table, computed from an index alone. *)
Definition equal_weight_of_index (idx : list (Timestamp * Asset)) : Table :=
  flat_map
    (fun k =>
       let group := filter (fun i => fst i =? k) idx in
       map (fun i => (i, one_over (List.length group))) group)
    (py_sorted (py_set (map fst idx))).

(** A row with its weight replaced by one over the number of rows of its
    date in [t]. *)
Definition equal_weight_row (t : Table) (r : Row) : Row :=
  (fst r, one_over (List.length (rows_on (row_date r) t))).

(** The dates of [l] in the order of their first occurrence, those in
    [seen] left out. *)
Fixpoint first_occurrences_from (seen l : list Timestamp) : list Timestamp :=
  match l with
  | [] => []
  | x :: r =>
      if in_dec Z.eq_dec x seen then first_occurrences_from seen r
      else x :: first_occurrences_from (x :: seen) r
  end.

Definition first_occurrences (l : list Timestamp) : list Timestamp :=
  first_occurrences_from [] l.

(** The Series of the constant stage, as a function of the date. *)
Definition static_rows_series (date : Timestamp) : Series :=
  [("a", 0.2%float); ("b", 0.8%float)].

(** ** The parser and the demo, evaluated *)

Example iso_2022_08_01 : iso_to_datetime "2022-08-01" = Ok ts_2022_08_01.
Proof. reflexivity. Qed.

Example iso_2022_08_02 : iso_to_datetime "2022-08-02" = Ok ts_2022_08_02.
Proof. reflexivity. Qed.

Example iso_refuses_month_13 :
  iso_to_datetime "2022-13-01" = Raise (ParserError "2022-13-01").
Proof. reflexivity. Qed.

Example demo_constant :
  fst demo
  = Ok [ ((ts_2022_08_01, "a"), 0.2%float); ((ts_2022_08_01, "b"), 0.8%float);
         ((ts_2022_08_02, "a"), 0.2%float); ((ts_2022_08_02, "b"), 0.8%float) ].
Proof. vm_compute. reflexivity. Qed.

Example demo_equal_weight :
  snd demo
  = Ok [ ((ts_2022_08_01, "a"), 0.5%float); ((ts_2022_08_01, "b"), 0.5%float);
         ((ts_2022_08_02, "a"), 0.5%float); ((ts_2022_08_02, "b"), 0.5%float) ].
Proof. vm_compute. reflexivity. Qed.

(** ** Facts about [sorted(set(...))] *)

Section SortedSet.

Lemma In_insort (x y : Timestamp) (l : list Timestamp) :
  In y (insort x l) <-> y = x \/ In y l.
Proof.
  induction l as [|z l IH]; simpl.
  - intuition.
  - destruct (x <=? z); simpl; rewrite ?IH; intuition.
Qed.

Lemma In_py_sorted (y : Timestamp) (l : list Timestamp) :
  In y (py_sorted l) <-> In y l.
Proof.
  induction l as [|x l IH]; simpl; [tauto|].
  rewrite In_insort, IH. intuition.
Qed.

Lemma In_py_set (y : Timestamp) (l : list Timestamp) :
  In y (py_set l) <-> In y l.
Proof. unfold py_set. apply nodup_In. Qed.

Lemma insort_ascending (x : Timestamp) (l : list Timestamp) :
  StronglySorted Z.lt l -> ~ In x l -> StronglySorted Z.lt (insort x l).
Proof.
  induction 1 as [|z l Hs IH Hz]; intros Hx; simpl.
  - repeat constructor.
  - destruct (Z.leb_spec x z) as [Hle|Hgt].
    + assert (x < z) by (simpl in Hx; lia).
      constructor; [constructor; assumption|].
      constructor; [assumption|].
      rewrite Forall_forall in Hz |- *. intros u Hu.
      specialize (Hz u Hu). lia.
    + constructor.
      * apply IH. simpl in Hx. tauto.
      * rewrite Forall_forall in Hz |- *. intros u Hu.
        apply In_insort in Hu. destruct Hu as [->|Hu]; [lia|auto].
Qed.

Lemma py_sorted_ascending (l : list Timestamp) :
  NoDup l -> StronglySorted Z.lt (py_sorted l).
Proof.
  induction 1 as [|x l Hx Hnd IH]; simpl.
  - constructor.
  - apply insort_ascending; [assumption|].
    rewrite In_py_sorted. assumption.
Qed.

(** The cleaned dates are ascending without repetition. *)
Lemma sorted_set_ascending (l : list Timestamp) :
  StronglySorted Z.lt (py_sorted (py_set l)).
Proof. apply py_sorted_ascending. unfold py_set. apply NoDup_nodup. Qed.

Lemma In_sorted_set (y : Timestamp) (l : list Timestamp) :
  In y (py_sorted (py_set l)) <-> In y l.
Proof. rewrite In_py_sorted. apply In_py_set. Qed.

(** An ascending list is determined by its elements. *)
Lemma ascending_unique (l1 l2 : list Timestamp) :
  StronglySorted Z.lt l1 -> StronglySorted Z.lt l2 ->
  (forall x, In x l1 <-> In x l2) -> l1 = l2.
Proof.
  intros H1. revert l2.
  induction H1 as [|a l1 Hs1 IH Ha]; intros l2 H2 Hin.
  - destruct l2 as [|b l2]; [reflexivity|].
    exfalso. apply (proj2 (Hin b)). left. reflexivity.
  - destruct H2 as [|b l2 Hs2 Hb].
    + exfalso. apply (proj1 (Hin a)). left. reflexivity.
    + rewrite Forall_forall in Ha, Hb.
      assert (a = b) as ->.
      { destruct (proj1 (Hin a) (or_introl eq_refl)) as [Hab|Hab]; [congruence|].
        destruct (proj2 (Hin b) (or_introl eq_refl)) as [Hba|Hba]; [congruence|].
        specialize (Ha _ Hba). specialize (Hb _ Hab). lia. }
      f_equal. apply IH; [assumption|].
      intros x. split; intros Hx.
      * destruct (proj1 (Hin x) (or_intror Hx)) as [Hxb|Hxb]; [|assumption].
        specialize (Ha _ Hx). lia.
      * destruct (proj2 (Hin x) (or_intror Hx)) as [Hxb|Hxb]; [|assumption].
        specialize (Hb _ Hx). lia.
Qed.

Lemma sorted_set_same_elements (l1 l2 : list Timestamp) :
  (forall x, In x l1 <-> In x l2) ->
  py_sorted (py_set l1) = py_sorted (py_set l2).
Proof.
  intros H. apply ascending_unique; try apply sorted_set_ascending.
  intros x. rewrite !In_sorted_set. apply H.
Qed.

Lemma sorted_set_fixpoint (l : list Timestamp) :
  StronglySorted Z.lt l -> py_sorted (py_set l) = l.
Proof.
  intros H. apply ascending_unique; [apply sorted_set_ascending|assumption|].
  intros x. apply In_sorted_set.
Qed.

Lemma ascending_NoDup (l : list Timestamp) :
  StronglySorted Z.lt l -> NoDup l.
Proof.
  induction 1 as [|a l Hs IH Ha]; constructor; [|assumption].
  rewrite Forall_forall in Ha. intros Hin. specialize (Ha _ Hin). lia.
Qed.

End SortedSet.

(** ** Facts about comprehensions *)

Lemma list_comprehension_In {A B : Type} (f : A -> result B) (l : list A) (ys : list B) :
list_comprehension f l = Ok ys ->
forall y, In y ys <-> exists x, In x l /\ f x = Ok y.
Proof.
revert ys. induction l as [|a l IH]; simpl; intros ys H y.
- injection H as <-. simpl. split; [tauto|]. intros (x & [] & _).
- destruct (f a) as [b|e] eqn:Hfa; simpl in H; [|discriminate].
  destruct (list_comprehension f l) as [bs|e]; simpl in H; [|discriminate].
  injection H as <-. simpl. rewrite (IH bs eq_refl). split.
  + intros [<-|(x & Hx & Hfx)]; [exists a; auto|exists x; auto].
  + intros (x & [<-|Hx] & Hfx); [left; congruence|right; exists x; auto].
Qed.

Lemma list_comprehension_total {A B : Type} (f : A -> B) (l : list A) :
list_comprehension (fun x => Ok (f x)) l = Ok (map f l).
Proof.
induction l as [|a l IH]; simpl; [reflexivity|]. rewrite IH. reflexivity.
Qed.

Lemma list_comprehension_ext {A B : Type} (f g : A -> result B) (l : list A) :
(forall x, In x l -> f x = g x) ->
list_comprehension f l = list_comprehension g l.
Proof.
induction l as [|a l IH]; simpl; intros H; [reflexivity|].
rewrite (H a) by auto. rewrite IH by auto. reflexivity.
Qed.

Lemma dict_setitem_fresh {V : Type} (d : list (Timestamp * V)) (k : Timestamp) (v : V) :
  ~ In k (dict_keys d) -> dict_setitem d k v = d ++ [(k, v)].
Proof.
  induction d as [|[k' v'] d IH]; simpl; intros H; [reflexivity|].
  destruct (Z.eqb_spec k' k) as [->|Hne]; [tauto|].
  rewrite IH by tauto. reflexivity.
Qed.

(** With distinct new keys and a function that never raises, the dict
    comprehension lists the keys in order, each with its value. *)
Lemma dict_comprehension_distinct {V : Type} (f : Timestamp -> V) (keys : list Timestamp) :
  NoDup keys ->
  forall acc, (forall k, In k keys -> ~ In k (dict_keys acc)) ->
  dict_comprehension (fun k => Ok (f k)) keys acc
  = Ok (acc ++ map (fun k => (k, f k)) keys).
Proof.
  induction 1 as [|k keys Hk Hnd IH]; intros acc Hacc; simpl.
  - rewrite app_nil_r. reflexivity.
  - rewrite dict_setitem_fresh by (apply Hacc; left; reflexivity).
    rewrite IH.
    + rewrite <- app_assoc. reflexivity.
    + intros k' Hk'. unfold dict_keys. rewrite map_app, in_app_iff. simpl.
      intros [Hin|[<-|[]]]; [|tauto].
      apply (Hacc k'); [right; assumption|assumption].
Qed.

(** The first key of a dict comprehension is evaluated first: when its
    value raises, the comprehension raises the same. *)
Lemma dict_comprehension_first_raises {V : Type} (f : Timestamp -> result V)
  (k : Timestamp) (keys : list Timestamp) (acc : list (Timestamp * V)) (e : exn) :
  f k = Raise e -> dict_comprehension f (k :: keys) acc = Raise e.
Proof. intros H. simpl. rewrite H. reflexivity. Qed.

(** ** Facts about the cleaning of the dates *)

Section Cleaning.

Variable to_datetime : string -> result Timestamp.

Let parse := to_real_date to_datetime.

Lemma real_dates_of_timestamps (ds : list Timestamp) :
  list_comprehension parse (map DTimestamp ds) = Ok ds.
Proof.
  induction ds as [|d ds IH]; simpl; [reflexivity|]. rewrite IH. reflexivity.
Qed.

(** What [clean_dates] returns is ascending without repetition and holds
    exactly the dates the input denotes. *)
Lemma clean_dates_spec (dates : DatesArg) (ds : list Timestamp) :
  clean_dates to_datetime dates = Ok ds ->
  StronglySorted Z.lt ds /\
  forall t, In t ds <->
    exists x, In x (match dates with Single d => [d] | Collection l => l end)
              /\ to_real_date to_datetime x = Ok t.
Proof.
  unfold clean_dates. intros H.
  destruct (list_comprehension _ _) as [ys|e] eqn:Hys; simpl in H; [|discriminate].
  injection H as <-. split; [apply sorted_set_ascending|].
  intros t. rewrite In_sorted_set. apply (list_comprehension_In _ _ _ Hys).
Qed.

(** Cleaning dates that are already clean changes nothing. *)
Lemma clean_dates_of_clean (ds : list Timestamp) :
  StronglySorted Z.lt ds ->
  clean_dates to_datetime (Collection (map DTimestamp ds)) = Ok ds.
Proof.
  intros H. unfold clean_dates.
  fold parse. rewrite real_dates_of_timestamps. simpl.
  rewrite sorted_set_fixpoint by assumption. reflexivity.
Qed.

Lemma clean_dates_twice (dates : DatesArg) (ds : list Timestamp) :
  clean_dates to_datetime dates = Ok ds ->
  clean_dates to_datetime (Collection (map DTimestamp ds)) = Ok ds.
Proof.
  intros H. apply clean_dates_of_clean. apply (clean_dates_spec _ _ H).
Qed.

Lemma drop_seen_parse (l : list DateLike) :
  forall seen,
  (forall x, In x seen -> exists t, parse x = Ok t) ->
  match list_comprehension parse l with
  | Raise e => list_comprehension parse (drop_seen seen l) = Raise e
  | Ok ys =>
      exists zs, list_comprehension parse (drop_seen seen l) = Ok zs /\
        forall t, In t ys \/ denoted_by to_datetime seen t
                  <-> In t zs \/ denoted_by to_datetime seen t
  end.
Proof.
  induction l as [|x r IH]; intros seen Hseen; simpl.
  - exists []. split; [reflexivity|tauto].
  - destruct (parse x) as [y|e] eqn:Hx; simpl.
    + destruct (in_dec DateLike_eq_dec x seen) as [Hin|Hnin].
      * specialize (IH seen Hseen).
        destruct (list_comprehension parse r) as [ys|e]; simpl; [|assumption].
        destruct IH as (zs & Hzs & Heq). exists zs. split; [assumption|].
        intros t. simpl. rewrite <- Heq.
        assert (y = t -> denoted_by to_datetime seen t) by (intros <-; exists x; auto).
        tauto.
      * assert (Hseen' : forall u, In u (x :: seen) -> exists t, parse u = Ok t).
        { intros u [<-|Hu]; [exists y; assumption|auto]. }
        specialize (IH (x :: seen) Hseen'). simpl. rewrite Hx. simpl.
        destruct (list_comprehension parse r) as [ys|e]; simpl.
        -- destruct IH as (zs & -> & Heq). simpl. exists (y :: zs).
           split; [reflexivity|]. intros t. specialize (Heq t).
           assert (Hd : denoted_by to_datetime (x :: seen) t
                        <-> y = t \/ denoted_by to_datetime seen t).
           { split.
             - intros (u & [<-|Hu] & Hpu);
                 [left; unfold parse in Hx; congruence|right; exists u; auto].
             - intros [<-|(u & Hu & Hpu)]; [exists x|exists u]; simpl; auto. }
           rewrite Hd in Heq. simpl. tauto.
        -- rewrite IH. reflexivity.
    + destruct (in_dec DateLike_eq_dec x seen) as [Hin|Hnin].
      * destruct (Hseen x Hin) as (t & Ht). congruence.
      * simpl. rewrite Hx. reflexivity.
Qed.

(** Dropping the repeated elements of a collection does not change what
    the cleaning returns, or raises. *)
Lemma clean_dates_without_duplicates (l : list DateLike) :
  clean_dates to_datetime (Collection (without_duplicates l))
  = clean_dates to_datetime (Collection l).
Proof.
  unfold clean_dates, without_duplicates. fold parse.
  pose proof (drop_seen_parse l [] (fun x (H : In x []) => match H with end)) as H.
  destruct (list_comprehension parse l) as [ys|e]; simpl.
  - destruct H as (zs & -> & Heq). simpl. f_equal.
    apply sorted_set_same_elements. intros t. specialize (Heq t).
    assert (~ denoted_by to_datetime [] t) by (intros (u & [] & _)).
    tauto.
  - rewrite H. reflexivity.
Qed.

End Cleaning.

(** ** Facts about [groupby(level=0).apply(_ew)] *)

Lemma _ew_nonempty (group : Table) :
  group <> [] -> _ew group = Ok (equalised group).
Proof. destruct group; [congruence|reflexivity]. Qed.

Lemma _ew_empty : _ew [] = Raise ZeroDivisionError.
Proof. reflexivity. Qed.

Lemma rows_on_In (d : Timestamp) (t : Table) (r : Row) :
  In r (rows_on d t) <-> In r t /\ row_date r = d.
Proof. unfold rows_on. rewrite filter_In, Z.eqb_eq. tauto. Qed.

Lemma rows_on_nonempty (d : Timestamp) (t : Table) :
  In d (map row_date t) -> rows_on d t <> [].
Proof.
  rewrite in_map_iff. intros (r & Hd & Hr) Hnil.
  assert (In r (rows_on d t)) as Hin by (apply rows_on_In; auto).
  rewrite Hnil in Hin. destruct Hin.
Qed.

Lemma rows_on_absent (d : Timestamp) (t : Table) :
  ~ In d (map row_date t) -> rows_on d t = [].
Proof.
  intros H. destruct (rows_on d t) as [|r g] eqn:Hg; [reflexivity|].
  exfalso. apply H. assert (In r (rows_on d t)) as Hin by (rewrite Hg; left; reflexivity).
  apply rows_on_In in Hin. apply in_map_iff. exists r. tauto.
Qed.

Lemma groupby_level0_keys (t : Table) :
  map fst (pd.groupby_level0 t) = group_keys t.
Proof.
  unfold pd.groupby_level0, group_keys. rewrite map_map. simpl. apply map_id.
Qed.

(** No group of [groupby] is empty. *)
Lemma groupby_level0_nonempty (t : Table) :
  Forall (fun g => snd g <> []) (pd.groupby_level0 t).
Proof.
  unfold pd.groupby_level0. rewrite Forall_map. simpl.
  rewrite Forall_forall. intros k Hk. apply rows_on_nonempty.
  apply In_sorted_set. assumption.
Qed.

Lemma groupby_level0_some (t : Table) :
  t <> [] -> pd.groupby_level0 t <> [].
Proof.
  destruct t as [|r t]; [congruence|]. intros _ Hnil.
  assert (In (row_date r) (group_keys (r :: t))) as Hin
    by (apply In_sorted_set; left; reflexivity).
  rewrite <- groupby_level0_keys, Hnil in Hin. destruct Hin.
Qed.

(** On a table with a row, [groupby(level=0).apply(_ew)] returns, and
    returns the equalised groups in key order. *)
Lemma apply_ew_groupby (t : Table) :
  t <> [] ->
  pd.apply _ew (pd.groupby_level0 t)
  = Ok (flat_map (fun k => equalised (rows_on k t)) (group_keys t)).
Proof.
  intros Hne. unfold pd.apply.
  rewrite (list_comprehension_ext _ (fun g => Ok (equalised (snd g)))).
  - rewrite list_comprehension_total. simpl.
    destruct (pd.groupby_level0 t) as [|g gs] eqn:Hg;
      [exfalso; apply (groupby_level0_some t Hne Hg)|].
    rewrite <- Hg. simpl.
    unfold pd.groupby_level0. fold (group_keys t). rewrite map_map. simpl.
    rewrite <- flat_map_concat_map. reflexivity.
  - intros g Hg. apply _ew_nonempty.
    pose proof (groupby_level0_nonempty t) as H.
    rewrite Forall_forall in H. apply H. assumption.
Qed.

(** On the table without rows there is no group, and the call of [_ew]
    on the empty slice fails. *)
Lemma apply_ew_groupby_nothing :
  pd.apply _ew (pd.groupby_level0 []) = Raise ZeroDivisionError.
Proof. reflexivity. Qed.

Lemma apply_ew_groupby_result (t : Table) :
  pd.apply _ew (pd.groupby_level0 t) = equal_weight_result t.
Proof.
  destruct t as [|r t]; [reflexivity|].
  apply apply_ew_groupby. discriminate.
Qed.

Lemma rows_on_app (d : Timestamp) (t1 t2 : Table) :
  rows_on d (t1 ++ t2) = rows_on d t1 ++ rows_on d t2.
Proof. unfold rows_on. apply filter_app. Qed.

Lemma rows_on_all (d : Timestamp) (t : Table) :
  (forall r, In r t -> row_date r = d) -> rows_on d t = t.
Proof.
  induction t as [|r t IH]; intros H; simpl; [reflexivity|].
  rewrite (proj2 (Z.eqb_eq _ _) (H r (or_introl eq_refl))).
  f_equal. apply IH. intros r' Hr'. apply H. right. assumption.
Qed.

Lemma rows_on_none (d : Timestamp) (t : Table) :
  (forall r, In r t -> row_date r <> d) -> rows_on d t = [].
Proof.
  intros H. apply rows_on_absent. rewrite in_map_iff.
  intros (r & Hd & Hr). apply (H r Hr Hd).
Qed.

(** Rows of one date in a table put together from per-key parts, when
    every part holds rows of its key only. *)
Lemma rows_on_flat_map (G : Timestamp -> Table) (d : Timestamp) (keys : list Timestamp) :
  (forall k r, In r (G k) -> row_date r = k) ->
  NoDup keys ->
  rows_on d (flat_map G keys) = if in_dec Z.eq_dec d keys then G d else [].
Proof.
  intros HG. induction 1 as [|k keys Hk Hnd IH]; simpl; [reflexivity|].
  rewrite rows_on_app, IH.
  destruct (Z.eq_dec k d) as [->|Hne].
  - rewrite rows_on_all by (apply HG).
    destruct (in_dec Z.eq_dec d keys); [contradiction|]. apply app_nil_r.
  - rewrite rows_on_none.
    + simpl. destruct (in_dec Z.eq_dec d keys); reflexivity.
    + intros r Hr. rewrite (HG k r Hr). assumption.
Qed.

Lemma equalised_dates (d : Timestamp) (t : Table) (r : Row) :
  In r (equalised (rows_on d t)) -> row_date r = d.
Proof.
  unfold equalised. rewrite in_map_iff. intros (r0 & <- & Hr0).
  apply rows_on_In in Hr0. apply Hr0.
Qed.

(** Date by date, the equal-weight table is the upstream table with every
    weight replaced by one over the number of rows of the date. *)
Lemma rows_on_equal_weight_table (d : Timestamp) (t : Table) :
  rows_on d (equal_weight_table t) = equalised (rows_on d t).
Proof.
  unfold equal_weight_table.
  rewrite rows_on_flat_map.
  - destruct (in_dec Z.eq_dec d (group_keys t)) as [Hin|Hnin]; [reflexivity|].
    rewrite rows_on_absent; [reflexivity|].
    intros H. apply Hnin. apply In_sorted_set. assumption.
  - intros k r. apply equalised_dates.
  - apply ascending_NoDup. apply sorted_set_ascending.
Qed.

Lemma In_equal_weight_table (t : Table) (r : Row) :
  In r (equal_weight_table t) <-> In r (equalised (rows_on (row_date r) t)).
Proof.
  rewrite <- rows_on_equal_weight_table, rows_on_In. tauto.
Qed.

(** ** Facts about the stages *)

Section Stages.

Variable to_datetime : string -> result Timestamp.

(** [allocation] hands the cleaned dates to [_allocation]. *)
Lemma allocation_clean (self : Stage) (dates : DatesArg) :
  allocation to_datetime self dates
  = match clean_dates to_datetime dates with
    | Ok ds => _allocation self ds
    | Raise e => Raise e
    end.
Proof. reflexivity. Qed.

(** Through the entry point again, the upstream stage computes on the
    dates [EqualWeight._allocation] was given, when those are clean. *)
Lemma allocation_of_clean (self : Stage) (ds : list Timestamp) :
  StronglySorted Z.lt ds ->
  allocation to_datetime self (Collection (map DTimestamp ds)) = _allocation self ds.
Proof.
  intros H. unfold allocation. rewrite clean_dates_of_clean by assumption.
  reflexivity.
Qed.

(** [EqualWeight] on any input: the upstream call on the same input,
    then [groupby(level=0).apply(_ew)] on what it returns. *)
Lemma EqualWeight_allocation_eq (previous_step : Stage) (dates : DatesArg) :
  allocation to_datetime (EqualWeight to_datetime previous_step) dates
  = match allocation to_datetime previous_step dates with
    | Ok prev => equal_weight_result prev
    | Raise e => Raise e
    end.
Proof.
  unfold allocation at 1 2.
  destruct (clean_dates to_datetime dates) as [ds|e] eqn:Hds; simpl; [|reflexivity].
  unfold EqualWeight_allocation.
  rewrite allocation_of_clean by (apply (clean_dates_spec _ _ _ Hds)).
  destruct (_allocation previous_step ds) as [prev|e]; simpl; [|reflexivity].
  apply apply_ew_groupby_result.
Qed.

Lemma OneStaticAllocation_on (ds : list Timestamp) :
  NoDup ds -> ds <> [] ->
  _allocation OneStaticAllocation ds = Ok (flat_map static_rows ds).
Proof.
  intros Hnd Hne. simpl. unfold OneAllocationMixin_allocation.
  unfold OneStaticAllocation_one_allocation.
  rewrite (dict_comprehension_distinct _ ds Hnd []) by (intros k _ []).
  simpl. destruct ds as [|d ds]; [congruence|]. simpl.
  f_equal. f_equal. rewrite flat_map_concat_map, map_map, <- flat_map_concat_map.
  reflexivity.
Qed.

Lemma OneStaticAllocation_on_nothing :
  _allocation OneStaticAllocation [] = Raise (ValueError "No objects to concatenate").
Proof. reflexivity. Qed.

End Stages.

(** ** The properties of the specification *)

Lemma assets_on_equalised (g : Table) :
  map row_asset (equalised g) = map row_asset g.
Proof. unfold equalised. rewrite map_map. reflexivity. Qed.

Lemma mapping_on_equal_weight_table (d : Timestamp) (t : Table) :
  mapping_on d (equal_weight_table t)
  = map (fun r => (row_asset r, one_over (List.length (rows_on d t)))) (rows_on d t).
Proof.
  unfold mapping_on. rewrite rows_on_equal_weight_table.
  unfold equalised. rewrite map_map. reflexivity.
Qed.

Lemma equal_weight_result_some (prev : Table) :
  prev <> [] -> equal_weight_result prev = Ok (equal_weight_table prev).
Proof. destruct prev; [congruence|reflexivity]. Qed.

Lemma some_asset_some_row (d : Timestamp) (t : Table) :
  (0 < List.length (assets_on d t))%nat -> t <> [].
Proof. intros H ->. simpl in H. lia. Qed.

(** The float [_ew] computes for a group of [n] rows is the binary64
    quotient of one and [n], as IEEE 754 defines it. *)
Lemma one_over_binary64 (n : nat) :
  Z.of_nat n < 2 ^ 63 ->
  Prim2SF (1 / PrimFloat.of_uint63 (Uint63.of_Z (Z.of_nat n)))%float
  = SFdiv prec emax (Prim2SF 1%float)
      (binary_normalize prec emax (Z.of_nat n) 0 false).
Proof.
  intros Hn.
  rewrite FloatAxioms.div_spec, FloatAxioms.of_uint63_spec, Uint63.of_Z_spec.
  rewrite Z.mod_small; [reflexivity|].
  split; [apply Nat2Z.is_nonneg|exact Hn].
Qed.

(** C1. Equal-Weight Transform Stage: for every date sequence on which
    the upstream stage returns a table and every date with [n > 0] assets
    in that table, the transform returns a table in which every one of
    those assets is there for that date with weight exactly [1/n], the
    binary64 quotient of one and [n]; no other weight occurs for that
    date, and the assets of the date are the same in the output as in the
    upstream table. *)
Theorem equal_weight_one_over_n
  (to_datetime : string -> result Timestamp) (previous_step : Stage)
  (dates : DatesArg) (prev : Table) (d : Timestamp) (n : nat) :
  allocation to_datetime previous_step dates = Ok prev ->
  List.length (assets_on d prev) = n -> (0 < n)%nat ->
  exists out,
    allocation to_datetime (EqualWeight to_datetime previous_step) dates = Ok out /\
    (forall a, In a (assets_on d prev) ->
       In (a, (1 / PrimFloat.of_uint63 (Uint63.of_Z (Z.of_nat n)))%float)
          (mapping_on d out)) /\
    (forall a w, In (a, w) (mapping_on d out) ->
       w = (1 / PrimFloat.of_uint63 (Uint63.of_Z (Z.of_nat n)))%float) /\
    assets_on d out = assets_on d prev /\
    (Z.of_nat n < 2 ^ 63 ->
     Prim2SF (1 / PrimFloat.of_uint63 (Uint63.of_Z (Z.of_nat n)))%float
     = SFdiv prec emax (Prim2SF 1%float)
         (binary_normalize prec emax (Z.of_nat n) 0 false)).
Proof.
  intros Hprev Hn Hpos. exists (equal_weight_table prev). split.
  - rewrite EqualWeight_allocation_eq, Hprev.
    apply equal_weight_result_some. apply (some_asset_some_row d).
    rewrite Hn. assumption.
  - unfold assets_on in Hn. rewrite length_map in Hn.
    rewrite mapping_on_equal_weight_table, Hn.
    change (1 / PrimFloat.of_uint63 (Uint63.of_Z (Z.of_nat n)))%float
      with (one_over n).
    split; [|split; [|split]].
    + unfold assets_on. intros a Ha.
      apply in_map_iff in Ha. destruct Ha as (r & <- & Hr).
      apply in_map_iff. exists r. auto.
    + intros a w Hw. apply in_map_iff in Hw.
      destruct Hw as (r & Heq & _). congruence.
    + unfold assets_on. rewrite rows_on_equal_weight_table.
      apply assets_on_equalised.
    + apply one_over_binary64.
Qed.

Lemma equal_weight_one_over_n_witness :
  exists out,
    allocation iso_to_datetime (EqualWeight iso_to_datetime OneStaticAllocation)
      (Collection [DStr "2022-08-02"; DStr "2022-08-01"]) = Ok out /\
    (forall a,
       In a (assets_on ts_2022_08_02
               (static_rows ts_2022_08_01 ++ static_rows ts_2022_08_02)) ->
       In (a, (1 / PrimFloat.of_uint63 (Uint63.of_Z (Z.of_nat 2)))%float)
          (mapping_on ts_2022_08_02 out)) /\
    (forall a w, In (a, w) (mapping_on ts_2022_08_02 out) ->
       w = (1 / PrimFloat.of_uint63 (Uint63.of_Z (Z.of_nat 2)))%float) /\
    assets_on ts_2022_08_02 out
    = assets_on ts_2022_08_02
        (static_rows ts_2022_08_01 ++ static_rows ts_2022_08_02) /\
    (Z.of_nat 2 < 2 ^ 63 ->
     Prim2SF (1 / PrimFloat.of_uint63 (Uint63.of_Z (Z.of_nat 2)))%float
     = SFdiv prec emax (Prim2SF 1%float)
         (binary_normalize prec emax (Z.of_nat 2) 0 false)).
Proof.
  apply (equal_weight_one_over_n iso_to_datetime OneStaticAllocation
           (Collection [DStr "2022-08-02"; DStr "2022-08-01"])
           (static_rows ts_2022_08_01 ++ static_rows ts_2022_08_02)
           ts_2022_08_02 2%nat).
  - vm_compute. reflexivity.
  - reflexivity.
  - lia.
Defined.

(** C2, as the code has it. An empty date collection is cleaned to the
    empty date sequence and handed to the stage's computation as it is.
    The Constant Allocation Stage then fails: concatenating no per-date
    result raises a ValueError-class failure.  The Equal-Weight Transform
    Stage wrapping it fails with the same failure.  Neither returns a
    table. *)
Theorem empty_dates_reach_the_stage (to_datetime : string -> result Timestamp) :
  (forall self : Stage,
     allocation to_datetime self (Collection []) = _allocation self []) /\
  allocation to_datetime OneStaticAllocation (Collection [])
  = Raise (ValueError "No objects to concatenate") /\
  allocation to_datetime (EqualWeight to_datetime OneStaticAllocation) (Collection [])
  = Raise (ValueError "No objects to concatenate").
Proof.
  split; [reflexivity|]. split; [reflexivity|].
  rewrite EqualWeight_allocation_eq. reflexivity.
Qed.

(** C2, as the specification has it, fails on the empty collection: the
    Constant Allocation Stage and the Equal-Weight Transform Stage over it
    both raise where an empty table is promised. *)
Lemma empty_dates_do_not_give_an_empty_table :
  allocation iso_to_datetime OneStaticAllocation (Collection [])
  = Raise (ValueError "No objects to concatenate") /\
  allocation iso_to_datetime OneStaticAllocation (Collection []) <> Ok [] /\
  allocation iso_to_datetime (EqualWeight iso_to_datetime OneStaticAllocation)
    (Collection [])
  = Raise (ValueError "No objects to concatenate") /\
  allocation iso_to_datetime (EqualWeight iso_to_datetime OneStaticAllocation)
    (Collection []) <> Ok [].
Proof.
  repeat split; try reflexivity; vm_compute; discriminate.
Qed.

(** C3. End-to-end scenario: for the dates ["2022-08-02", "2022-08-01"]
    the constant stage returns the two dates in ascending order, each with
    a at 0.2 and b at 0.8, and the equal-weight stage over it returns, for
    each of the two dates, a at 0.5 and b at 0.5. *)
Theorem end_to_end_scenario :
  allocation iso_to_datetime OneStaticAllocation
    (Collection [DStr "2022-08-02"; DStr "2022-08-01"])
  = Ok [ ((ts_2022_08_01, "a"), 0.2%float); ((ts_2022_08_01, "b"), 0.8%float);
         ((ts_2022_08_02, "a"), 0.2%float); ((ts_2022_08_02, "b"), 0.8%float) ]
  /\
  allocation iso_to_datetime (EqualWeight iso_to_datetime OneStaticAllocation)
    (Collection [DStr "2022-08-02"; DStr "2022-08-01"])
  = Ok [ ((ts_2022_08_01, "a"), 0.5%float); ((ts_2022_08_01, "b"), 0.5%float);
         ((ts_2022_08_02, "a"), 0.5%float); ((ts_2022_08_02, "b"), 0.5%float) ]
  /\ ts_2022_08_01 < ts_2022_08_02.
Proof.
  split; [vm_compute; reflexivity|]. split; [vm_compute; reflexivity|].
  reflexivity.
Qed.

Lemma static_rows_dates (ds : list Timestamp) :
  map row_date (flat_map static_rows ds) = flat_map (fun d => [d; d]) ds.
Proof.
  induction ds as [|d ds IH]; simpl; [reflexivity|]. rewrite IH. reflexivity.
Qed.

Lemma twice_ascending (ds : list Timestamp) :
  StronglySorted Z.lt ds -> StronglySorted Z.le (flat_map (fun d => [d; d]) ds).
Proof.
  induction 1 as [|d ds Hs IH Hd]; simpl; [constructor|].
  assert (Forall (Z.le d) (flat_map (fun d => [d; d]) ds)) as Hall.
  { rewrite Forall_forall in Hd |- *. intros x Hx.
    apply in_flat_map in Hx. destruct Hx as (y & Hy & [<-|[<-|[]]]);
      specialize (Hd _ Hy); lia. }
  constructor; [constructor; assumption|].
  constructor; [lia|assumption].
Qed.

(** The constant stage returns a table whenever the cleaned dates are not
    empty. *)
Lemma OneStaticAllocation_returns
  (to_datetime : string -> result Timestamp) (dates : DatesArg) (ds : list Timestamp) :
  clean_dates to_datetime dates = Ok ds -> ds <> [] ->
  allocation to_datetime OneStaticAllocation dates = Ok (flat_map static_rows ds).
Proof.
  intros Hds Hne. rewrite allocation_clean, Hds.
  apply OneStaticAllocation_on; [|assumption].
  apply ascending_NoDup. apply (clean_dates_spec _ _ _ Hds).
Qed.

Lemma OneStaticAllocation_inv
  (to_datetime : string -> result Timestamp) (dates : DatesArg) (t : Table) :
  allocation to_datetime OneStaticAllocation dates = Ok t ->
  exists ds, clean_dates to_datetime dates = Ok ds /\ ds <> [] /\
             t = flat_map static_rows ds.
Proof.
  intros H. rewrite allocation_clean in H.
  destruct (clean_dates to_datetime dates) as [ds|e] eqn:Hds; [|discriminate].
  exists ds. split; [reflexivity|].
  destruct ds as [|d ds]; [discriminate|].
  split; [discriminate|].
  rewrite (OneStaticAllocation_on (d :: ds)) in H.
  - congruence.
  - apply ascending_NoDup. apply (clean_dates_spec _ _ _ Hds).
  - discriminate.
Qed.

(** C4. For every stage, a collection with repeated dates gives what the
    same collection without the repetitions gives (table or failure); the
    dates handed to the stage's computation are ascending without
    repetition and are exactly the dates the input denotes; and for the
    constant stage the dates of the returned table are those dates, in
    ascending order. *)
Theorem allocation_deduplicates_and_sorts
  (to_datetime : string -> result Timestamp) (self : Stage) :
  (forall l : list DateLike,
     allocation to_datetime self (Collection l)
     = allocation to_datetime self (Collection (without_duplicates l))) /\
  (forall dates : DatesArg,
     match clean_dates to_datetime dates with
     | Ok ds =>
         allocation to_datetime self dates = _allocation self ds /\
         StronglySorted Z.lt ds /\ NoDup ds /\
         forall t, In t ds <->
           exists x, In x (match dates with Single d => [d] | Collection l => l end)
                     /\ to_real_date to_datetime x = Ok t
     | Raise e => allocation to_datetime self dates = Raise e
     end) /\
  (forall (dates : DatesArg) (t : Table),
     allocation to_datetime OneStaticAllocation dates = Ok t ->
     StronglySorted Z.le (map row_date t) /\
     clean_dates to_datetime dates = Ok (group_keys t)).
Proof.
  split; [|split].
  - intros l. rewrite !allocation_clean, clean_dates_without_duplicates. reflexivity.
  - intros dates. rewrite allocation_clean.
    destruct (clean_dates to_datetime dates) as [ds|e] eqn:Hds; [|reflexivity].
    destruct (clean_dates_spec _ _ _ Hds) as [Hs Hin].
    repeat split; try assumption; try (apply ascending_NoDup; assumption);
      apply Hin.
  - intros dates t Ht.
    destruct (OneStaticAllocation_inv _ _ _ Ht) as (ds & Hds & _ & ->).
    pose proof (proj1 (clean_dates_spec _ _ _ Hds)) as Hs.
    rewrite static_rows_dates. split; [apply twice_ascending; assumption|].
    rewrite Hds. f_equal. symmetry. unfold group_keys.
    rewrite static_rows_dates.
    apply ascending_unique; [apply sorted_set_ascending|assumption|].
    intros x. rewrite In_sorted_set, in_flat_map. split.
    + intros (y & Hy & [<-|[<-|[]]]); assumption.
    + intros Hx. exists x. simpl. auto.
Qed.

Lemma rows_on_static_rows (d : Timestamp) (ds : list Timestamp) :
  NoDup ds -> In d ds -> rows_on d (flat_map static_rows ds) = static_rows d.
Proof.
  intros Hnd Hin. rewrite rows_on_flat_map.
  - destruct (in_dec Z.eq_dec d ds); [reflexivity|contradiction].
  - intros k r [<-|[<-|[]]]; reflexivity.
  - assumption.
Qed.

(** C5. Constant Allocation Stage: for every requested date of every
    requested date sequence the stage returns a table, and in that table
    the date has the mapping a to 0.2, b to 0.8, the same as every other
    requested date; the table is made of these mappings, each under its
    own date, and has no row under a date that was not requested. *)
Theorem constant_stage_fixed_mapping
  (to_datetime : string -> result Timestamp) (dates : DatesArg)
  (ds : list Timestamp) (d : Timestamp) :
  clean_dates to_datetime dates = Ok ds -> In d ds ->
  exists t,
    allocation to_datetime OneStaticAllocation dates = Ok t /\
    mapping_on d t = [("a", 0.2%float); ("b", 0.8%float)] /\
    (forall d', In d' ds -> mapping_on d' t = mapping_on d t) /\
    t = flat_map (fun d => [((d, "a"), 0.2%float); ((d, "b"), 0.8%float)]) ds /\
    (forall r, In r t -> In (row_date r) ds).
Proof.
  intros Hds Hd.
  assert (NoDup ds) as Hnd
    by (apply ascending_NoDup; apply (clean_dates_spec _ _ _ Hds)).
  assert (forall x, In x ds ->
            mapping_on x (flat_map static_rows ds)
            = [("a", 0.2%float); ("b", 0.8%float)]) as Hmap.
  { intros x Hx. unfold mapping_on.
    rewrite rows_on_static_rows by assumption. reflexivity. }
  exists (flat_map static_rows ds). split.
  - apply OneStaticAllocation_returns; [assumption|].
    intros ->. destruct Hd.
  - split; [apply Hmap; assumption|].
    split; [intros d' Hd'; rewrite !Hmap by assumption; reflexivity|].
    split; [reflexivity|].
    intros r Hr. apply in_flat_map in Hr.
    destruct Hr as (x & Hx & [<-|[<-|[]]]); assumption.
Qed.

Lemma constant_stage_fixed_mapping_witness :
  exists t,
    allocation iso_to_datetime OneStaticAllocation
      (Collection [DStr "2022-08-02"; DStr "2022-08-01"]) = Ok t /\
    mapping_on ts_2022_08_02 t = [("a", 0.2%float); ("b", 0.8%float)] /\
    (forall d', In d' [ts_2022_08_01; ts_2022_08_02] ->
                mapping_on d' t = mapping_on ts_2022_08_02 t) /\
    t = flat_map (fun d => [((d, "a"), 0.2%float); ((d, "b"), 0.8%float)])
          [ts_2022_08_01; ts_2022_08_02] /\
    (forall r, In r t -> In (row_date r) [ts_2022_08_01; ts_2022_08_02]).
Proof.
  apply (constant_stage_fixed_mapping iso_to_datetime
           (Collection [DStr "2022-08-02"; DStr "2022-08-01"])
           [ts_2022_08_01; ts_2022_08_02] ts_2022_08_02).
  - vm_compute. reflexivity.
  - simpl. auto.
Defined.

Lemma sorted_set_nonempty (l : list Timestamp) :
  l <> [] -> py_sorted (py_set l) <> [].
Proof.
  destruct l as [|x l]; [congruence|]. intros _ Hnil.
  assert (In x (py_sorted (py_set (x :: l)))) as Hin
    by (apply In_sorted_set; left; reflexivity).
  rewrite Hnil in Hin. destruct Hin.
Qed.

(** C6. For every non-empty sequence of canonical dates, [allocation] on
    a stage that overrides nothing fails with NotImplementedError, and so
    does [allocation] on a single-date stage that does not override
    [_one_allocation]; there the first per-date call already ends the
    dict comprehension. *)
Theorem unimplemented_stage_raises
  (to_datetime : string -> result Timestamp) (l : list Timestamp) :
  l <> [] ->
  allocation to_datetime AllocationMixin (Collection (map DTimestamp l))
  = Raise NotImplementedError /\
  allocation to_datetime OneAllocationMixin (Collection (map DTimestamp l))
  = Raise NotImplementedError /\
  (forall acc : list (Timestamp * Series),
     dict_comprehension OneAllocationMixin_one_allocation (py_sorted (py_set l)) acc
     = Raise NotImplementedError).
Proof.
  intros Hne.
  assert (clean_dates to_datetime (Collection (map DTimestamp l))
          = Ok (py_sorted (py_set l))) as Hclean.
  { unfold clean_dates. rewrite real_dates_of_timestamps. reflexivity. }
  pose proof (sorted_set_nonempty l Hne) as Hds.
  rewrite !allocation_clean, Hclean.
  destruct (py_sorted (py_set l)) as [|d ds]; [congruence|].
  repeat split.
Qed.

Lemma unimplemented_stage_raises_witness :
  allocation iso_to_datetime AllocationMixin
    (Collection (map DTimestamp [ts_2022_08_02; ts_2022_08_01]))
  = Raise NotImplementedError /\
  allocation iso_to_datetime OneAllocationMixin
    (Collection (map DTimestamp [ts_2022_08_02; ts_2022_08_01]))
  = Raise NotImplementedError /\
  (forall acc : list (Timestamp * Series),
     dict_comprehension OneAllocationMixin_one_allocation
       (py_sorted (py_set [ts_2022_08_02; ts_2022_08_01])) acc
     = Raise NotImplementedError).
Proof.
  apply (unimplemented_stage_raises iso_to_datetime [ts_2022_08_02; ts_2022_08_01]).
  discriminate.
Defined.

(** C7, as the code has it. Equal-Weight Transform Stage: whenever the
    upstream stage returns a table with at least one row, the transform
    returns a table; a date without assets in the upstream table has no
    assets in the output; every asset of the output is an asset of the
    upstream table on the same date; and [_ew] is called on non-empty
    groups only, so its division does not fail.  When the upstream table
    has no row at all, there is no group, [_ew] is called once on the
    empty table, and the transform fails with ZeroDivisionError. *)
Theorem equal_weight_zero_assets
  (to_datetime : string -> result Timestamp) (previous_step : Stage)
  (dates : DatesArg) (prev : Table) :
  allocation to_datetime previous_step dates = Ok prev ->
  (prev <> [] ->
   exists out,
     allocation to_datetime (EqualWeight to_datetime previous_step) dates = Ok out /\
     (forall d, assets_on d prev = [] -> assets_on d out = []) /\
     (forall d a, In a (assets_on d out) -> In a (assets_on d prev)) /\
     pd.groupby_level0 prev <> [] /\
     Forall (fun g => snd g <> [] /\ _ew (snd g) <> Raise ZeroDivisionError)
            (pd.groupby_level0 prev) /\
     pd.apply _ew (pd.groupby_level0 prev) = Ok out) /\
  (prev = [] ->
   allocation to_datetime (EqualWeight to_datetime previous_step) dates
   = Raise ZeroDivisionError).
Proof.
  intros Hprev. split.
  - intros Hne. exists (equal_weight_table prev).
    assert (forall d, assets_on d (equal_weight_table prev) = assets_on d prev)
      as Hsame.
    { intros d. unfold assets_on. rewrite rows_on_equal_weight_table.
      apply assets_on_equalised. }
    split; [rewrite EqualWeight_allocation_eq, Hprev;
            apply equal_weight_result_some; assumption|].
    split; [intros d; rewrite Hsame; trivial|].
    split; [intros d a; rewrite Hsame; trivial|].
    split; [apply groupby_level0_some; assumption|].
    split; [|apply apply_ew_groupby; assumption].
    eapply Forall_impl; [|apply groupby_level0_nonempty].
    intros g Hg. split; [assumption|].
    rewrite _ew_nonempty by assumption. discriminate.
  - intros ->. rewrite EqualWeight_allocation_eq, Hprev. reflexivity.
Qed.

Lemma equal_weight_zero_assets_witness :
  assets_on ts_2022_08_02 [((ts_2022_08_01, "a"), 0.3%float)] = [] /\
  ([((ts_2022_08_01, "a"), 0.3%float)] <> [] ->
   exists out,
     allocation iso_to_datetime (EqualWeight iso_to_datetime one_day_stage)
       (Collection [DStr "2022-08-02"; DStr "2022-08-01"]) = Ok out /\
     (forall d, assets_on d [((ts_2022_08_01, "a"), 0.3%float)] = [] ->
                assets_on d out = []) /\
     (forall d a, In a (assets_on d out) ->
                  In a (assets_on d [((ts_2022_08_01, "a"), 0.3%float)])) /\
     pd.groupby_level0 [((ts_2022_08_01, "a"), 0.3%float)] <> [] /\
     Forall (fun g => snd g <> [] /\ _ew (snd g) <> Raise ZeroDivisionError)
            (pd.groupby_level0 [((ts_2022_08_01, "a"), 0.3%float)]) /\
     pd.apply _ew (pd.groupby_level0 [((ts_2022_08_01, "a"), 0.3%float)]) = Ok out) /\
  ([((ts_2022_08_01, "a"), 0.3%float)] = [] ->
   allocation iso_to_datetime (EqualWeight iso_to_datetime one_day_stage)
     (Collection [DStr "2022-08-02"; DStr "2022-08-01"])
   = Raise ZeroDivisionError).
Proof.
  split; [reflexivity|].
  apply (equal_weight_zero_assets iso_to_datetime one_day_stage
           (Collection [DStr "2022-08-02"; DStr "2022-08-01"])).
  reflexivity.
Defined.

(** C7, as the specification has it, fails when the upstream stage
    returns a table without rows: the requested date has zero assets
    upstream, yet the transform does not return; [_ew] is called on the
    empty table and its division by [len(group)] raises. *)
Lemma equal_weight_fails_without_rows :
  allocation iso_to_datetime no_data_stage (Collection [DStr "2022-08-01"])
  = Ok [] /\
  assets_on ts_2022_08_01 [] = [] /\
  pd.groupby_level0 [] = [] /\
  _ew [] = Raise ZeroDivisionError /\
  allocation iso_to_datetime (EqualWeight iso_to_datetime no_data_stage)
    (Collection [DStr "2022-08-01"])
  = Raise ZeroDivisionError.
Proof. repeat split. Qed.

(** C8. Equal-Weight Transform Stage: when [allocation] of the upstream
    stage fails with an error on some input, [allocation] of the transform
    fails with the same error on that input; it returns no table. *)
Theorem equal_weight_propagates_failure
  (to_datetime : string -> result Timestamp) (previous_step : Stage)
  (dates : DatesArg) (e : exn) :
  allocation to_datetime previous_step dates = Raise e ->
  allocation to_datetime (EqualWeight to_datetime previous_step) dates = Raise e.
Proof.
  intros H. rewrite EqualWeight_allocation_eq, H. reflexivity.
Qed.

Lemma equal_weight_propagates_failure_witness :
  allocation iso_to_datetime (EqualWeight iso_to_datetime failing_stage)
    (Collection [DStr "2022-08-02"; DStr "2022-08-01"])
  = Raise (OtherError "upstream").
Proof.
  apply (equal_weight_propagates_failure iso_to_datetime failing_stage).
  reflexivity.
Defined.

(** C9. For every stage and every single date, a string or a timestamp,
    [allocation] on the bare date is [allocation] on the one-element
    collection of that date: both hand the one-element sequence of the
    date, made a timestamp, to the computation of the stage. *)
Theorem allocation_single_date
  (to_datetime : string -> result Timestamp) (self : Stage) (d : DateLike) :
  allocation to_datetime self (Single d)
  = allocation to_datetime self (Collection [d]) /\
  allocation to_datetime self (Collection [d])
  = (t <- to_real_date to_datetime d ;; _allocation self [t]).
Proof.
  split; [reflexivity|].
  unfold allocation, clean_dates. simpl.
  destruct (to_real_date to_datetime d) as [t|e]; reflexivity.
Qed.

(** C10. The cleaning is idempotent: on dates that are canonical,
    ascending and without repetition it returns them unchanged.  So the
    upstream stage, called by [EqualWeight._allocation] through
    [allocation], computes on the very dates [EqualWeight._allocation]
    received, and the second cleaning is not observable. *)
Theorem cleaning_is_idempotent
  (to_datetime : string -> result Timestamp) (ds : list Timestamp) :
  StronglySorted Z.lt ds ->
  clean_dates to_datetime (Collection (map DTimestamp ds)) = Ok ds /\
  forall previous_step : Stage,
    allocation to_datetime previous_step (Collection (map DTimestamp ds))
    = _allocation previous_step ds /\
    _allocation (EqualWeight to_datetime previous_step) ds
    = (prev <- _allocation previous_step ds ;;
       pd.apply _ew (pd.groupby_level0 prev)).
Proof.
  intros Hs. split; [apply clean_dates_of_clean; assumption|].
  intros previous_step. split; [apply allocation_of_clean; assumption|].
  simpl. unfold EqualWeight_allocation.
  rewrite allocation_of_clean by assumption. reflexivity.
Qed.

Lemma cleaning_is_idempotent_witness :
  clean_dates iso_to_datetime
    (Collection (map DTimestamp [ts_2022_08_01; ts_2022_08_02]))
  = Ok [ts_2022_08_01; ts_2022_08_02] /\
  forall previous_step : Stage,
    allocation iso_to_datetime previous_step
      (Collection (map DTimestamp [ts_2022_08_01; ts_2022_08_02]))
    = _allocation previous_step [ts_2022_08_01; ts_2022_08_02] /\
    _allocation (EqualWeight iso_to_datetime previous_step)
      [ts_2022_08_01; ts_2022_08_02]
    = (prev <- _allocation previous_step [ts_2022_08_01; ts_2022_08_02] ;;
       pd.apply _ew (pd.groupby_level0 prev)).
Proof.
  apply (cleaning_is_idempotent iso_to_datetime [ts_2022_08_01; ts_2022_08_02]).
  repeat constructor.
Defined.


(** ** Further properties of the cleaning *)

Lemma list_comprehension_app_raises {A B : Type} (f : A -> result B)
  (l1 : list A) (x : A) (l2 : list A) (e : exn) :
  (forall y, In y l1 -> exists b, f y = Ok b) ->
  f x = Raise e ->
  list_comprehension f (l1 ++ x :: l2) = Raise e.
Proof.
  induction l1 as [|a l1 IH]; intros Hok Hx; simpl.
  - rewrite Hx. reflexivity.
  - destruct (Hok a (or_introl eq_refl)) as (b & ->). simpl.
    rewrite IH; [reflexivity| |assumption].
    intros y Hy. apply Hok. right. assumption.
Qed.

(** X1. A collection whose first element that is no date is [x]: the
    call fails with the error of [x], whatever the stage, and the stage's
    computation is not reached. *)
Theorem allocation_first_bad_date
  (to_datetime : string -> result Timestamp) (self : Stage)
  (l1 : list DateLike) (x : DateLike) (l2 : list DateLike) (e : exn) :
  (forall y, In y l1 -> exists t, to_real_date to_datetime y = Ok t) ->
  to_real_date to_datetime x = Raise e ->
  allocation to_datetime self (Collection (l1 ++ x :: l2)) = Raise e /\
  clean_dates to_datetime (Collection (l1 ++ x :: l2)) = Raise e.
Proof.
  intros Hok Hx.
  assert (clean_dates to_datetime (Collection (l1 ++ x :: l2)) = Raise e) as Hc.
  { unfold clean_dates.
    rewrite (list_comprehension_app_raises _ l1 x l2 e Hok Hx). reflexivity. }
  split; [|assumption]. rewrite allocation_clean, Hc. reflexivity.
Qed.

Lemma allocation_first_bad_date_witness :
  allocation iso_to_datetime OneStaticAllocation
    (Collection ([DStr "2022-08-01"] ++ DStr "yesterday" :: [DStr "tomorrow"]))
  = Raise (ParserError "yesterday") /\
  clean_dates iso_to_datetime
    (Collection ([DStr "2022-08-01"] ++ DStr "yesterday" :: [DStr "tomorrow"]))
  = Raise (ParserError "yesterday").
Proof.
  apply (allocation_first_bad_date iso_to_datetime OneStaticAllocation
           [DStr "2022-08-01"] (DStr "yesterday") [DStr "tomorrow"]).
  - intros y [<-|[]]. exists ts_2022_08_01. reflexivity.
  - reflexivity.
Defined.

(** X2. Two collections of dates that denote the same set of timestamps
    give the same result on every stage: neither the order of the dates,
    nor their repetition, nor their form (string or timestamp) matters. *)
Theorem allocation_same_dates
  (to_datetime : string -> result Timestamp) (self : Stage)
  (l l' : list DateLike) (ys ys' : list Timestamp) :
  real_dates to_datetime l = Ok ys ->
  real_dates to_datetime l' = Ok ys' ->
  (forall t, In t ys <-> In t ys') ->
  allocation to_datetime self (Collection l)
  = allocation to_datetime self (Collection l').
Proof.
  unfold real_dates. intros Hl Hl' Hsame.
  rewrite !allocation_clean. unfold clean_dates. rewrite Hl, Hl'. simpl.
  rewrite (sorted_set_same_elements ys ys' Hsame). reflexivity.
Qed.

Lemma allocation_same_dates_witness :
  allocation iso_to_datetime OneStaticAllocation
    (Collection [DStr "2022-08-02"; DStr "2022-08-01"; DStr "2022-08-02"])
  = allocation iso_to_datetime OneStaticAllocation
      (Collection [DTimestamp ts_2022_08_01; DStr "2022-08-02"]).
Proof.
  apply (allocation_same_dates iso_to_datetime OneStaticAllocation
           [DStr "2022-08-02"; DStr "2022-08-01"; DStr "2022-08-02"]
           [DTimestamp ts_2022_08_01; DStr "2022-08-02"]
           [ts_2022_08_02; ts_2022_08_01; ts_2022_08_02]
           [ts_2022_08_01; ts_2022_08_02]).
  - reflexivity.
  - reflexivity.
  - intros t. simpl. tauto.
Defined.

(** ** Further properties of the single-date stages *)

Lemma dict_comprehension_ext {V : Type} (f g : Timestamp -> result V)
  (keys : list Timestamp) :
  (forall k, In k keys -> f k = g k) ->
  forall acc, dict_comprehension f keys acc = dict_comprehension g keys acc.
Proof.
  induction keys as [|k keys IH]; intros H acc; simpl; [reflexivity|].
  rewrite (H k) by (left; reflexivity).
  destruct (g k) as [v|e]; simpl; [|reflexivity].
  apply IH. intros k' Hk'. apply H. right. assumption.
Qed.

Lemma dict_comprehension_app_raises {V : Type} (f : Timestamp -> result V)
  (ks1 : list Timestamp) (k : Timestamp) (ks2 : list Timestamp) (e : exn) :
  (forall x, In x ks1 -> exists v, f x = Ok v) ->
  f k = Raise e ->
  forall acc, dict_comprehension f (ks1 ++ k :: ks2) acc = Raise e.
Proof.
  induction ks1 as [|a ks1 IH]; intros Hok Hk acc; simpl.
  - rewrite Hk. reflexivity.
  - destruct (Hok a (or_introl eq_refl)) as (v & ->). simpl.
    apply IH; [|assumption]. intros x Hx. apply Hok. right. assumption.
Qed.

Lemma tag_rows_dates (kv : Timestamp * Series) (r : Row) :
  In r (pd.tag_rows kv) -> row_date r = fst kv.
Proof.
  unfold pd.tag_rows. rewrite in_map_iff. intros (aw & <- & _). reflexivity.
Qed.

Lemma mapping_of_tag_rows (d : Timestamp) (s : Series) :
  map (fun r => (row_asset r, row_weight r)) (pd.tag_rows (d, s)) = s.
Proof.
  unfold pd.tag_rows. rewrite map_map. simpl.
  induction s as [|[a w] s IH]; simpl; [reflexivity|]. rewrite IH. reflexivity.
Qed.

(** A single-date stage on distinct dates where its per-date operation
    returns: the per-date Series, each under its date, in date order. *)
Lemma OneAllocationMixin_allocation_returns
  (one : Timestamp -> result Series) (f : Timestamp -> Series) (ds : list Timestamp) :
  NoDup ds -> ds <> [] ->
  (forall d, In d ds -> one d = Ok (f d)) ->
  OneAllocationMixin_allocation one ds
  = Ok (flat_map (fun d => pd.tag_rows (d, f d)) ds).
Proof.
  intros Hnd Hne Hone. unfold OneAllocationMixin_allocation.
  rewrite (dict_comprehension_ext one (fun k => Ok (f k)) ds Hone).
  rewrite (dict_comprehension_distinct f ds Hnd []) by (intros k _ []).
  simpl. destruct ds as [|d ds]; [congruence|]. simpl.
  f_equal. f_equal. rewrite flat_map_concat_map, map_map, <- flat_map_concat_map.
  reflexivity.
Qed.

(** X3. A stage that implements [_one_allocation] only: when the
    operation returns for every requested date, the stage returns a table
    in which every requested date has exactly the mapping the operation
    gave for it, under that date, and no other date has rows. *)
Theorem single_date_stage_table
  (to_datetime : string -> result Timestamp)
  (one : Timestamp -> result Series) (f : Timestamp -> Series)
  (dates : DatesArg) (ds : list Timestamp) :
  clean_dates to_datetime dates = Ok ds -> ds <> [] ->
  (forall d, In d ds -> one d = Ok (f d)) ->
  exists t,
    allocation to_datetime (SingleDateStage one) dates = Ok t /\
    t = flat_map (fun d => pd.tag_rows (d, f d)) ds /\
    (forall d, In d ds -> mapping_on d t = f d) /\
    (forall d, ~ In d ds -> rows_on d t = []).
Proof.
  intros Hds Hne Hone.
  assert (NoDup ds) as Hnd
    by (apply ascending_NoDup; apply (clean_dates_spec _ _ _ Hds)).
  exists (flat_map (fun d => pd.tag_rows (d, f d)) ds).
  assert (forall d, rows_on d (flat_map (fun d => pd.tag_rows (d, f d)) ds)
                    = if in_dec Z.eq_dec d ds then pd.tag_rows (d, f d) else [])
    as Hrows.
  { intros d. apply rows_on_flat_map; [|assumption].
    intros k r Hr. apply (tag_rows_dates _ _ Hr). }
  split; [|split; [reflexivity|split]].
  - rewrite allocation_clean, Hds. simpl.
    apply OneAllocationMixin_allocation_returns; assumption.
  - intros d Hd. unfold mapping_on. rewrite Hrows.
    destruct (in_dec Z.eq_dec d ds); [|contradiction].
    apply mapping_of_tag_rows.
  - intros d Hd. rewrite Hrows.
    destruct (in_dec Z.eq_dec d ds); [contradiction|reflexivity].
Qed.

Lemma single_date_stage_table_witness :
  exists t,
    allocation iso_to_datetime
      (SingleDateStage (fun d => Ok [("x", PrimFloat.of_uint63 (Uint63.of_Z d))]))
      (Collection [DTimestamp 2; DTimestamp 1]) = Ok t /\
    t = flat_map
          (fun d => pd.tag_rows (d, [("x", PrimFloat.of_uint63 (Uint63.of_Z d))]))
          [1; 2] /\
    (forall d, In d [1; 2] ->
       mapping_on d t = [("x", PrimFloat.of_uint63 (Uint63.of_Z d))]) /\
    (forall d, ~ In d [1; 2] -> rows_on d t = []).
Proof.
  apply (single_date_stage_table iso_to_datetime
           (fun d => Ok [("x", PrimFloat.of_uint63 (Uint63.of_Z d))])
           (fun d => [("x", PrimFloat.of_uint63 (Uint63.of_Z d))])
           (Collection [DTimestamp 2; DTimestamp 1]) [1; 2]).
  - reflexivity.
  - discriminate.
  - reflexivity.
Defined.

(** X4. A stage that implements [_one_allocation] only: when the
    operation fails on a requested date and returns on all earlier ones,
    the stage fails with that error; nothing is concatenated and no table
    is returned, whatever the operation does on the later dates. *)
Theorem single_date_stage_first_failure
  (to_datetime : string -> result Timestamp)
  (one : Timestamp -> result Series)
  (dates : DatesArg) (ds1 : list Timestamp) (d : Timestamp) (ds2 : list Timestamp)
  (e : exn) :
  clean_dates to_datetime dates = Ok (ds1 ++ d :: ds2) ->
  (forall x, In x ds1 -> exists s, one x = Ok s) ->
  one d = Raise e ->
  allocation to_datetime (SingleDateStage one) dates = Raise e.
Proof.
  intros Hds Hok Hd. rewrite allocation_clean, Hds. simpl.
  unfold OneAllocationMixin_allocation.
  rewrite (dict_comprehension_app_raises one ds1 d ds2 e Hok Hd). reflexivity.
Qed.

Lemma single_date_stage_first_failure_witness :
  allocation iso_to_datetime (SingleDateStage only_first_day)
    (Collection [DStr "2022-08-02"; DStr "2022-08-01"])
  = Raise (OtherError "no data").
Proof.
  apply (single_date_stage_first_failure iso_to_datetime only_first_day
           (Collection [DStr "2022-08-02"; DStr "2022-08-01"])
           [ts_2022_08_01] ts_2022_08_02 []).
  - reflexivity.
  - intros x [<-|[]]. eexists. reflexivity.
  - reflexivity.
Defined.

Lemma index_of_tag_rows (d : Timestamp) (s : Series) :
  index_of (pd.tag_rows (d, s)) = map (fun a => (d, a)) (map fst s).
Proof. unfold index_of, pd.tag_rows. rewrite !map_map. reflexivity. Qed.

Lemma index_of_app (t1 t2 : Table) :
  index_of (t1 ++ t2) = index_of t1 ++ index_of t2.
Proof. unfold index_of. apply map_app. Qed.

Lemma single_date_index_distinct (f : Timestamp -> Series) (ds : list Timestamp) :
  NoDup ds ->
  (forall d, In d ds -> NoDup (map fst (f d))) ->
  NoDup (index_of (flat_map (fun d => pd.tag_rows (d, f d)) ds)).
Proof.
  induction 1 as [|d ds Hd Hnd IH]; intros Hf; simpl; [constructor|].
  rewrite index_of_app, index_of_tag_rows.
  assert (forall a, ~ In (d, a) (index_of (flat_map (fun d => pd.tag_rows (d, f d)) ds)))
    as Hfresh.
  { intros a Hin. unfold index_of in Hin. apply in_map_iff in Hin.
    destruct Hin as (r & Hk & Hr). apply in_flat_map in Hr.
    destruct Hr as (d' & Hd' & Hr). apply tag_rows_dates in Hr. simpl in Hr.
    apply Hd. replace d with d'; [assumption|].
    rewrite <- Hr. unfold row_date. rewrite Hk. reflexivity. }
  specialize (IH (fun x Hx => Hf x (or_intror Hx))).
  pose proof (Hf d (or_introl eq_refl)) as Hs.
  induction (map fst (f d)) as [|a l IHl]; simpl; [assumption|].
  inversion Hs as [|? ? Ha Hl]; subst.
  constructor; [|apply IHl; assumption].
  rewrite in_app_iff, in_map_iff. intros [(a' & Heq & Ha')|Hin].
  - injection Heq as ->. contradiction.
  - apply (Hfresh a Hin).
Qed.

(** X5. A stage that implements [_one_allocation] only: when every
    per-date Series has each asset code once, the returned table has each
    (date, asset) key once. *)
Theorem single_date_stage_unique_keys
  (to_datetime : string -> result Timestamp)
  (one : Timestamp -> result Series) (dates : DatesArg) (t : Table) :
  (forall d s, one d = Ok s -> NoDup (map fst s)) ->
  allocation to_datetime (SingleDateStage one) dates = Ok t ->
  NoDup (index_of t).
Proof.
  intros Hone Ht. rewrite allocation_clean in Ht.
  destruct (clean_dates to_datetime dates) as [ds|e] eqn:Hds; [|discriminate].
  simpl in Ht.
  assert (NoDup ds) as Hnd
    by (apply ascending_NoDup; apply (clean_dates_spec _ _ _ Hds)).
  clear Hds. unfold OneAllocationMixin_allocation in Ht.
  set (f := fun d => match one d with Ok s => s | Raise _ => [] end).
  destruct (dict_comprehension one ds []) as [dict|e] eqn:Hdict; [|discriminate].
  assert (forall d, In d ds -> one d = Ok (f d)) as Hall.
  { clear Ht. intros d Hd. apply in_split in Hd. destruct Hd as (l1 & l2 & ->).
    destruct (one d) as [s|e] eqn:Hd.
    - unfold f. rewrite Hd. reflexivity.
    - exfalso. revert Hdict. generalize (@nil (Timestamp * Series)).
      clear Hnd. induction l1 as [|a l1 IH]; simpl; intros acc.
      + rewrite Hd. discriminate.
      + destruct (one a); simpl; [apply IH|discriminate]. }
  destruct ds as [|d0 ds0] eqn:Eds; [simpl in Hdict; injection Hdict as <-; discriminate|].
  rewrite <- Eds in *.
  assert (ds <> []) as Hne by (rewrite Eds; discriminate).
  pose proof (OneAllocationMixin_allocation_returns one f ds Hnd Hne Hall) as Hret.
  unfold OneAllocationMixin_allocation in Hret. rewrite Hdict in Hret.
  rewrite Ht in Hret. injection Hret as ->.
  apply single_date_index_distinct; [assumption|].
  intros d Hd. apply (Hone d). apply Hall. assumption.
Qed.

Lemma single_date_stage_unique_keys_witness :
  NoDup (index_of (static_rows ts_2022_08_01 ++ static_rows ts_2022_08_02)).
Proof.
  apply (single_date_stage_unique_keys iso_to_datetime
           OneStaticAllocation_one_allocation
           (Collection [DStr "2022-08-02"; DStr "2022-08-01"])).
  - intros d s H. injection H as <-. simpl.
    constructor; [simpl; intros [H|[]]; discriminate|].
    constructor; [simpl; tauto|constructor].
  - vm_compute. reflexivity.
Defined.

(** ** Further properties of the equal-weight transform *)

Lemma index_of_equalised (g : Table) : index_of (equalised g) = index_of g.
Proof. unfold index_of, equalised. rewrite map_map. reflexivity. Qed.

Lemma length_equalised (g : Table) : List.length (equalised g) = List.length g.
Proof. unfold equalised. apply length_map. Qed.

Lemma equalised_twice (g : Table) : equalised (equalised g) = equalised g.
Proof.
  unfold equalised at 1. rewrite length_equalised.
  unfold equalised. rewrite map_map. reflexivity.
Qed.

Lemma dates_of_equal_weight_table (t : Table) (d : Timestamp) :
  In d (map row_date (equal_weight_table t)) <-> In d (map row_date t).
Proof.
  split; intros H.
  - apply in_map_iff in H. destruct H as (r & <- & Hr).
    apply In_equal_weight_table in Hr. unfold equalised in Hr.
    apply in_map_iff in Hr. destruct Hr as (r0 & Hr0 & Hin).
    apply rows_on_In in Hin. apply in_map_iff. exists r0. split; [|tauto].
    rewrite <- Hr0. reflexivity.
  - destruct (in_dec Z.eq_dec d (map row_date (equal_weight_table t)))
      as [|Hnin]; [assumption|].
    exfalso. apply rows_on_absent in Hnin.
    rewrite rows_on_equal_weight_table in Hnin.
    apply (rows_on_nonempty d t H).
    destruct (rows_on d t); [reflexivity|discriminate].
Qed.

Lemma equal_weight_table_twice (t : Table) :
  equal_weight_table (equal_weight_table t) = equal_weight_table t.
Proof.
  unfold equal_weight_table at 1.
  replace (group_keys (equal_weight_table t)) with (group_keys t).
  - unfold equal_weight_table at 2. apply flat_map_ext. intros k.
    rewrite rows_on_equal_weight_table. apply equalised_twice.
  - unfold group_keys. apply sorted_set_same_elements. intros d.
    symmetry. apply dates_of_equal_weight_table.
Qed.

Lemma equal_weight_table_some (t : Table) :
  t <> [] -> equal_weight_table t <> [].
Proof.
  destruct t as [|r t]; [congruence|]. intros _ Hnil.
  assert (In (row_date r) (map row_date (equal_weight_table (r :: t)))) as Hin
    by (apply dates_of_equal_weight_table; left; reflexivity).
  rewrite Hnil in Hin. destruct Hin.
Qed.

Lemma equal_weight_result_twice (prev : Table) :
  match equal_weight_result prev with
  | Ok out => equal_weight_result out
  | Raise e => Raise e
  end = equal_weight_result prev.
Proof.
  destruct prev as [|r t]; [reflexivity|].
  rewrite (equal_weight_result_some (r :: t)) by discriminate.
  rewrite equal_weight_result_some by (apply equal_weight_table_some; discriminate).
  rewrite equal_weight_table_twice. reflexivity.
Qed.

(** X6. The equal-weight transform is idempotent: an [EqualWeight] stage
    over an [EqualWeight] stage returns, or raises, on every input what
    the inner stage alone does. *)
Theorem equal_weight_idempotent
  (to_datetime : string -> result Timestamp) (previous_step : Stage)
  (dates : DatesArg) :
  allocation to_datetime
    (EqualWeight to_datetime (EqualWeight to_datetime previous_step)) dates
  = allocation to_datetime (EqualWeight to_datetime previous_step) dates.
Proof.
  rewrite (EqualWeight_allocation_eq to_datetime
             (EqualWeight to_datetime previous_step)).
  rewrite EqualWeight_allocation_eq.
  destruct (allocation to_datetime previous_step dates) as [prev|e];
    [|reflexivity].
  apply equal_weight_result_twice.
Qed.

Lemma filter_split_Permutation {A : Type} (p q : A -> bool) (l : list A) :
  (forall x, In x l -> p x = true -> q x = false) ->
  Permutation (filter p l ++ filter q l) (filter (fun x => p x || q x) l).
Proof.
  induction l as [|a l IH]; intros H; simpl; [constructor|].
  assert (Permutation (filter p l ++ filter q l) (filter (fun x => p x || q x) l))
    as IH' by (apply IH; intros x Hx; apply H; right; assumption).
  destruct (p a) eqn:Hp; simpl.
  - rewrite (H a (or_introl eq_refl) Hp). apply perm_skip. assumption.
  - destruct (q a); simpl; [|assumption].
    apply Permutation_sym, Permutation_cons_app, Permutation_sym. assumption.
Qed.

Lemma groups_Permutation (t : Table) (keys : list Timestamp) :
  NoDup keys ->
  Permutation (flat_map (fun k => rows_on k t) keys)
              (filter (fun r => existsb (Z.eqb (row_date r)) keys) t).
Proof.
  induction 1 as [|k keys Hk Hnd IH]; simpl.
  - induction t as [|r t IHt]; simpl; [constructor|assumption].
  - eapply Permutation_trans; [apply Permutation_app_head; exact IH|].
    unfold rows_on. apply filter_split_Permutation.
    intros r _ Hr. apply Z.eqb_eq in Hr.
    destruct (existsb (Z.eqb (row_date r)) keys) eqn:Hex; [|reflexivity].
    exfalso. apply existsb_exists in Hex. destruct Hex as (k' & Hk' & Heq).
    apply Z.eqb_eq in Heq. apply Hk. rewrite <- Hr, Heq. assumption.
Qed.

Lemma filter_all {A : Type} (p : A -> bool) (l : list A) :
  (forall x, In x l -> p x = true) -> filter p l = l.
Proof.
  induction l as [|a l IH]; intros H; simpl; [reflexivity|].
  rewrite (H a) by (left; reflexivity). f_equal. apply IH.
  intros x Hx. apply H. right. assumption.
Qed.

Lemma index_of_flat_map (F : Timestamp -> Table) (keys : list Timestamp) :
  index_of (flat_map F keys) = flat_map (fun k => index_of (F k)) keys.
Proof.
  induction keys as [|k keys IH]; simpl; [reflexivity|].
  rewrite index_of_app, IH. reflexivity.
Qed.

Lemma index_of_equal_weight_table (t : Table) :
  index_of (equal_weight_table t)
  = index_of (flat_map (fun k => rows_on k t) (group_keys t)).
Proof.
  unfold equal_weight_table. rewrite !index_of_flat_map.
  apply flat_map_ext. intros k. apply index_of_equalised.
Qed.

Lemma equal_weight_table_index_Permutation (t : Table) :
  Permutation (index_of (equal_weight_table t)) (index_of t).
Proof.
  rewrite index_of_equal_weight_table. unfold index_of. apply Permutation_map.
  eapply Permutation_trans.
  - apply groups_Permutation. apply ascending_NoDup, sorted_set_ascending.
  - rewrite filter_all; [apply Permutation_refl|].
    intros r Hr. apply existsb_exists. exists (row_date r).
    split; [|apply Z.eqb_refl].
    apply In_sorted_set. apply in_map. assumption.
Qed.

(** X7. The equal-weight transform keeps the index of the upstream
    table: when the upstream table has at least one row, the transform
    returns a table whose (date, asset) keys are those of the upstream
    table, each as often as there; so the number of rows is the same, and
    keys that are unique upstream are unique in the output. *)
Theorem equal_weight_keeps_index
  (to_datetime : string -> result Timestamp) (previous_step : Stage)
  (dates : DatesArg) (prev : Table) :
  allocation to_datetime previous_step dates = Ok prev ->
  prev <> [] ->
  exists out,
    allocation to_datetime (EqualWeight to_datetime previous_step) dates = Ok out /\
    Permutation (index_of out) (index_of prev) /\
    List.length out = List.length prev /\
    (NoDup (index_of prev) -> NoDup (index_of out)).
Proof.
  intros Hprev Hne. exists (equal_weight_table prev).
  pose proof (equal_weight_table_index_Permutation prev) as Hperm.
  split; [rewrite EqualWeight_allocation_eq, Hprev;
          apply equal_weight_result_some; assumption|].
  split; [assumption|]. split.
  - apply Permutation_length in Hperm. unfold index_of in Hperm.
    rewrite !length_map in Hperm. assumption.
  - intros Hnd. apply (Permutation_NoDup (Permutation_sym Hperm) Hnd).
Qed.

Lemma equal_weight_keeps_index_witness :
  exists out,
    allocation iso_to_datetime (EqualWeight iso_to_datetime unordered_stage)
      (Collection [DStr "2022-08-02"; DStr "2022-08-01"]) = Ok out /\
    Permutation (index_of out)
      (index_of [ ((ts_2022_08_02, "a"), 0.3%float); ((ts_2022_08_01, "a"), 0.6%float);
                  ((ts_2022_08_02, "b"), 0.7%float) ]) /\
    List.length out
    = List.length [ ((ts_2022_08_02, "a"), 0.3%float); ((ts_2022_08_01, "a"), 0.6%float);
                    ((ts_2022_08_02, "b"), 0.7%float) ] /\
    (NoDup (index_of [ ((ts_2022_08_02, "a"), 0.3%float); ((ts_2022_08_01, "a"), 0.6%float);
                       ((ts_2022_08_02, "b"), 0.7%float) ]) ->
     NoDup (index_of out)).
Proof.
  apply (equal_weight_keeps_index iso_to_datetime unordered_stage
           (Collection [DStr "2022-08-02"; DStr "2022-08-01"])).
  - reflexivity.
  - discriminate.
Defined.

Lemma index_of_rows_on (k : Timestamp) (t : Table) :
  index_of (rows_on k t) = filter (fun i => fst i =? k) (index_of t).
Proof.
  unfold rows_on, index_of. induction t as [|r t IH]; simpl; [reflexivity|].
  unfold row_date, Row, Timestamp in *.
  destruct (fst (fst r) =? k); simpl; rewrite IH; reflexivity.
Qed.

Lemma equal_weight_table_of_index (t : Table) :
  equal_weight_table t = equal_weight_of_index (index_of t).
Proof.
  unfold equal_weight_table, equal_weight_of_index, group_keys.
  replace (map fst (index_of t)) with (map row_date t)
    by (unfold index_of; rewrite map_map; reflexivity).
  apply flat_map_ext. intros k. simpl.
  rewrite <- index_of_rows_on. unfold equalised, index_of.
  rewrite map_map, length_map. reflexivity.
Qed.

(** X8. The equal-weight transform reads the index of the upstream table
    and nothing else: two upstream stages whose tables have the same index
    give the same output, whatever their weights. *)
Theorem equal_weight_ignores_weights
  (to_datetime : string -> result Timestamp) (step1 step2 : Stage)
  (dates : DatesArg) (prev1 prev2 : Table) :
  allocation to_datetime step1 dates = Ok prev1 ->
  allocation to_datetime step2 dates = Ok prev2 ->
  index_of prev1 = index_of prev2 ->
  allocation to_datetime (EqualWeight to_datetime step1) dates
  = allocation to_datetime (EqualWeight to_datetime step2) dates.
Proof.
  intros H1 H2 Hidx. rewrite !EqualWeight_allocation_eq, H1, H2.
  destruct prev1 as [|r1 t1], prev2 as [|r2 t2];
    [reflexivity|discriminate|discriminate|].
  unfold equal_weight_result.
  rewrite !equal_weight_table_of_index, Hidx. reflexivity.
Qed.

Lemma equal_weight_ignores_weights_witness :
  allocation iso_to_datetime (EqualWeight iso_to_datetime OneStaticAllocation)
    (Collection [DStr "2022-08-02"; DStr "2022-08-01"])
  = allocation iso_to_datetime (EqualWeight iso_to_datetime other_weights_stage)
      (Collection [DStr "2022-08-02"; DStr "2022-08-01"]).
Proof.
  apply (equal_weight_ignores_weights iso_to_datetime
           OneStaticAllocation other_weights_stage
           (Collection [DStr "2022-08-02"; DStr "2022-08-01"])
           (static_rows ts_2022_08_01 ++ static_rows ts_2022_08_02)
           [ ((ts_2022_08_01, "a"), 0.9%float); ((ts_2022_08_01, "b"), 0.1%float);
             ((ts_2022_08_02, "a"), 0.9%float); ((ts_2022_08_02, "b"), 0.1%float) ]).
  - vm_compute. reflexivity.
  - vm_compute. reflexivity.
  - reflexivity.
Defined.

(** *** Upstream tables in date order *)

Lemma rows_on_other (k k' : Timestamp) (t : Table) :
  k' <> k ->
  rows_on k' (filter (fun r => negb (row_date r =? k)) t) = rows_on k' t.
Proof.
  intros Hne. unfold rows_on. induction t as [|r t IH]; simpl; [reflexivity|].
  destruct (Z.eqb_spec (row_date r) k) as [Hk|Hk]; simpl.
  - destruct (Z.eqb_spec (row_date r) k') as [Hk'|Hk']; [congruence|assumption].
  - rewrite IH. reflexivity.
Qed.

Lemma date_order_filter (p : Row -> bool) (t : Table) :
  StronglySorted Z.le (map row_date t) ->
  StronglySorted Z.le (map row_date (filter p t)).
Proof.
  induction t as [|r t IH]; simpl; intros H; [constructor|].
  inversion H as [|? ? Hs Hall]; subst.
  destruct (p r); simpl; [|apply IH; assumption].
  constructor; [apply IH; assumption|].
  rewrite Forall_forall in Hall |- *. intros x Hx. apply Hall.
  apply in_map_iff in Hx. destruct Hx as (r0 & <- & Hr0).
  apply in_map. apply filter_In in Hr0. tauto.
Qed.

(** In a table in date order whose dates are not below [k], the rows of
    [k] come first. *)
Lemma date_order_split (k : Timestamp) (t : Table) :
  StronglySorted Z.le (map row_date t) ->
  (forall r, In r t -> k <= row_date r) ->
  t = rows_on k t ++ filter (fun r => negb (row_date r =? k)) t.
Proof.
  induction t as [|r t IH]; simpl; intros Hs Hge; [reflexivity|].
  inversion Hs as [|? ? Hs' Hall]; subst.
  destruct (Z.eqb_spec (row_date r) k) as [Hk|Hk]; simpl.
  - f_equal. apply IH; [assumption|]. intros x Hx. apply Hge. right. assumption.
  - rewrite Forall_forall in Hall.
    assert (forall x, In x t -> row_date x <> k) as Hlater.
    { intros x Hx. specialize (Hall (row_date x) (in_map _ _ _ Hx)).
      specialize (Hge r (or_introl eq_refl)). lia. }
    fold (rows_on k t). rewrite (rows_on_none k t Hlater). simpl. f_equal.
    symmetry. apply filter_all. intros x Hx.
    apply negb_true_iff. apply Z.eqb_neq. apply Hlater. assumption.
Qed.

Lemma flat_map_ext_In {A B : Type} (f g : A -> list B) (l : list A) :
  (forall x, In x l -> f x = g x) -> flat_map f l = flat_map g l.
Proof.
  induction l as [|a l IH]; intros H; simpl; [reflexivity|].
  rewrite (H a) by (left; reflexivity). f_equal. apply IH.
  intros x Hx. apply H. right. assumption.
Qed.

(** The groups of a table in date order, put together in key order, are
    the table. *)
Lemma date_order_groups (keys : list Timestamp) :
  StronglySorted Z.lt keys ->
  forall t : Table,
    StronglySorted Z.le (map row_date t) ->
    (forall r, In r t -> In (row_date r) keys) ->
    flat_map (fun k => rows_on k t) keys = t.
Proof.
  induction 1 as [|k keys Hs IH Hk]; intros t Ht Hin; simpl.
  - destruct t as [|r t]; [reflexivity|]. destruct (Hin r (or_introl eq_refl)).
  - rewrite Forall_forall in Hk.
    set (rest := filter (fun r => negb (row_date r =? k)) t).
    rewrite (flat_map_ext_In (fun k' => rows_on k' t) (fun k' => rows_on k' rest)).
    + rewrite (IH rest).
      * symmetry. apply date_order_split; [assumption|].
        intros r Hr. destruct (Hin r Hr) as [<-|Hr']; [lia|].
        specialize (Hk _ Hr'). lia.
      * apply date_order_filter. assumption.
      * intros r Hr. apply filter_In in Hr. destruct Hr as [Hr Hne].
        apply negb_true_iff in Hne. apply Z.eqb_neq in Hne.
        destruct (Hin r Hr) as [Heq|Hr']; [congruence|assumption].
    + intros k' Hk'. symmetry. apply rows_on_other.
      specialize (Hk _ Hk'). lia.
Qed.

Lemma equalised_rows_on (k : Timestamp) (t : Table) :
  equalised (rows_on k t) = map (equal_weight_row t) (rows_on k t).
Proof.
  unfold equalised. apply map_ext_in. intros r Hr.
  apply rows_on_In in Hr. destruct Hr as [_ <-]. reflexivity.
Qed.

Lemma map_flat_map {A B C : Type} (h : B -> C) (F : A -> list B) (l : list A) :
  map h (flat_map F l) = flat_map (fun x => map h (F x)) l.
Proof.
  induction l as [|a l IH]; simpl; [reflexivity|].
  rewrite map_app, IH. reflexivity.
Qed.

Lemma equal_weight_table_date_order (t : Table) :
  StronglySorted Z.le (map row_date t) ->
  equal_weight_table t = map (equal_weight_row t) t.
Proof.
  intros Hs. unfold equal_weight_table.
  rewrite (flat_map_ext _ _ (fun k => equalised_rows_on k t)).
  rewrite <- map_flat_map. f_equal.
  apply date_order_groups; [apply sorted_set_ascending|assumption|].
  intros r Hr. apply In_sorted_set. apply in_map. assumption.
Qed.

(** X9. When the upstream table has at least one row and is in date
    order, the equal-weight transform returns it row by row: the same
    keys in the same order, each weight replaced by one over the number
    of rows of its date. *)
Theorem equal_weight_row_by_row
  (to_datetime : string -> result Timestamp) (previous_step : Stage)
  (dates : DatesArg) (prev : Table) :
  allocation to_datetime previous_step dates = Ok prev ->
  prev <> [] ->
  StronglySorted Z.le (map row_date prev) ->
  allocation to_datetime (EqualWeight to_datetime previous_step) dates
  = Ok (map (equal_weight_row prev) prev) /\
  index_of (map (equal_weight_row prev) prev) = index_of prev.
Proof.
  intros Hprev Hne Hs. split.
  - rewrite EqualWeight_allocation_eq, Hprev.
    rewrite equal_weight_result_some by assumption.
    rewrite equal_weight_table_date_order by assumption. reflexivity.
  - unfold index_of. rewrite map_map. reflexivity.
Qed.

Lemma equal_weight_row_by_row_witness :
  allocation iso_to_datetime (EqualWeight iso_to_datetime date_ordered_stage)
    (Collection [DStr "2022-08-02"; DStr "2022-08-01"])
  = Ok (map (equal_weight_row date_ordered_table) date_ordered_table) /\
  index_of (map (equal_weight_row date_ordered_table) date_ordered_table)
  = index_of date_ordered_table.
Proof.
  apply (equal_weight_row_by_row iso_to_datetime date_ordered_stage
           (Collection [DStr "2022-08-02"; DStr "2022-08-01"])).
  - reflexivity.
  - discriminate.
  - unfold date_ordered_table, ts_2022_08_01, ts_2022_08_02. simpl.
    repeat constructor; unfold row_date; simpl; lia.
Defined.

Example equal_weight_row_by_row_values :
  map (equal_weight_row date_ordered_table) date_ordered_table
  = [ ((ts_2022_08_01, "a"), 1.0%float); ((ts_2022_08_02, "a"), 0.5%float);
      ((ts_2022_08_02, "b"), 0.5%float) ].
Proof. vm_compute. reflexivity. Qed.

(** *** The transform over a single-date stage *)

Lemma date_order_prefix (d : Timestamp) (l1 l2 : list Timestamp) :
  (forall x, In x l1 -> x = d) ->
  (forall y, In y l2 -> d <= y) ->
  StronglySorted Z.le l2 ->
  StronglySorted Z.le (l1 ++ l2).
Proof.
  intros H1 H2 Hs. induction l1 as [|a l1 IH]; simpl; [assumption|].
  constructor.
  - apply IH. intros x Hx. apply H1. right. assumption.
  - rewrite Forall_forall. intros x Hx. apply in_app_iff in Hx.
    rewrite (H1 a (or_introl eq_refl)).
    destruct Hx as [Hx|Hx]; [rewrite (H1 x (or_intror Hx)); lia|auto].
Qed.

Lemma single_date_table_date_order (f : Timestamp -> Series) (ds : list Timestamp) :
  StronglySorted Z.lt ds ->
  StronglySorted Z.le (map row_date (flat_map (fun d => pd.tag_rows (d, f d)) ds)).
Proof.
  induction 1 as [|d ds Hs IH Hd]; simpl; [constructor|].
  rewrite map_app. apply (date_order_prefix d); [| |assumption].
  - intros x Hx. apply in_map_iff in Hx. destruct Hx as (r & <- & Hr).
    apply (tag_rows_dates _ _ Hr).
  - rewrite Forall_forall in Hd. intros y Hy.
    apply in_map_iff in Hy. destruct Hy as (r & <- & Hr).
    apply in_flat_map in Hr. destruct Hr as (d' & Hd' & Hr).
    rewrite (tag_rows_dates _ _ Hr). simpl. specialize (Hd _ Hd'). lia.
Qed.

(** The Series of one date with every weight replaced by one over the
    number of its entries. *)
Lemma equal_weight_rows_of_tag_rows (t : Table) (d : Timestamp) (s : Series) :
  rows_on d t = pd.tag_rows (d, s) ->
  map (equal_weight_row t) (pd.tag_rows (d, s))
  = pd.tag_rows (d, map (fun aw => (fst aw, one_over (List.length s))) s).
Proof.
  intros Hrows.
  assert (List.length (rows_on d t) = List.length s) as Hlen
    by (rewrite Hrows; unfold pd.tag_rows; apply length_map).
  unfold pd.tag_rows. simpl. rewrite !map_map.
  apply map_ext. intros aw. unfold equal_weight_row, row_date. simpl.
  rewrite Hlen. reflexivity.
Qed.

(** X10. An [EqualWeight] stage over a stage that implements
    [_one_allocation] only, the operation returning for every requested
    date.  When the operation gave an asset for at least one requested
    date, the pipeline returns, date by date and in date order, the assets
    the operation gave for the date, each with weight one over their
    number; a date for which the operation gave no asset has no row.
    When the operation gave no asset for any requested date, the upstream
    table has no row and the pipeline fails with ZeroDivisionError. *)
Theorem equal_weight_over_single_date_stage
  (to_datetime : string -> result Timestamp)
  (one : Timestamp -> result Series) (f : Timestamp -> Series)
  (dates : DatesArg) (ds : list Timestamp) :
  clean_dates to_datetime dates = Ok ds -> ds <> [] ->
  (forall d, In d ds -> one d = Ok (f d)) ->
  ((exists d, In d ds /\ f d <> []) ->
   allocation to_datetime (EqualWeight to_datetime (SingleDateStage one)) dates
   = Ok (flat_map
           (fun d => pd.tag_rows
                       (d, map (fun aw => (fst aw, one_over (List.length (f d)))) (f d)))
           ds)) /\
  ((forall d, In d ds -> f d = []) ->
   allocation to_datetime (EqualWeight to_datetime (SingleDateStage one)) dates
   = Raise ZeroDivisionError).
Proof.
  intros Hds Hne Hone.
  pose proof (proj1 (clean_dates_spec _ _ _ Hds)) as Hs.
  pose proof (ascending_NoDup _ Hs) as Hnd.
  set (T := flat_map (fun d => pd.tag_rows (d, f d)) ds).
  assert (allocation to_datetime (SingleDateStage one) dates = Ok T) as HT.
  { rewrite allocation_clean, Hds. simpl.
    apply OneAllocationMixin_allocation_returns; assumption. }
  rewrite EqualWeight_allocation_eq, HT. split.
  - intros (d0 & Hd0 & Hf0).
    assert (T <> []) as HTne.
    { destruct (f d0) as [|aw s] eqn:Hfd; [congruence|].
      intros Hnil.
      assert (In ((d0, fst aw), snd aw) T) as Hin.
      { unfold T. apply in_flat_map. exists d0. split; [assumption|].
        unfold pd.tag_rows. simpl. rewrite Hfd. left. reflexivity. }
      rewrite Hnil in Hin. destruct Hin. }
    rewrite equal_weight_result_some by assumption. f_equal.
    rewrite equal_weight_table_date_order
      by (apply single_date_table_date_order; assumption).
    unfold T at 2. rewrite map_flat_map.
    apply flat_map_ext_In. intros d Hd.
    apply equal_weight_rows_of_tag_rows.
    unfold T. rewrite rows_on_flat_map;
      [|intros k r Hr; apply (tag_rows_dates _ _ Hr)|assumption].
    destruct (in_dec Z.eq_dec d ds); [reflexivity|contradiction].
  - intros Hnone.
    assert (T = []) as ->; [|reflexivity].
    unfold T. rewrite (flat_map_ext_In _ (fun _ => [])).
    + clear. induction ds as [|d ds IH]; simpl; [reflexivity|assumption].
    + intros d Hd. rewrite (Hnone d Hd). reflexivity.
Qed.

Lemma equal_weight_over_single_date_stage_witness :
  ((exists d, In d [ts_2022_08_01; ts_2022_08_02] /\ first_day_series d <> []) ->
   allocation iso_to_datetime
     (EqualWeight iso_to_datetime
        (SingleDateStage (fun d => Ok (first_day_series d))))
     (Collection [DStr "2022-08-02"; DStr "2022-08-01"])
   = Ok (flat_map
           (fun d => pd.tag_rows
                       (d, map (fun aw => (fst aw,
                                           one_over (List.length (first_day_series d))))
                               (first_day_series d)))
           [ts_2022_08_01; ts_2022_08_02])) /\
  ((forall d, In d [ts_2022_08_01; ts_2022_08_02] -> first_day_series d = []) ->
   allocation iso_to_datetime
     (EqualWeight iso_to_datetime
        (SingleDateStage (fun d => Ok (first_day_series d))))
     (Collection [DStr "2022-08-02"; DStr "2022-08-01"])
   = Raise ZeroDivisionError).
Proof.
  apply (equal_weight_over_single_date_stage iso_to_datetime
           (fun d => Ok (first_day_series d)) first_day_series
           (Collection [DStr "2022-08-02"; DStr "2022-08-01"])
           [ts_2022_08_01; ts_2022_08_02]).
  - vm_compute. reflexivity.
  - discriminate.
  - reflexivity.
Defined.

Example equal_weight_over_first_day_series :
  allocation iso_to_datetime
    (EqualWeight iso_to_datetime
       (SingleDateStage (fun d => Ok (first_day_series d))))
    (Collection [DStr "2022-08-02"; DStr "2022-08-01"])
  = Ok [ ((ts_2022_08_01, "a"), 0.5%float); ((ts_2022_08_01, "b"), 0.5%float) ].
Proof. vm_compute. reflexivity. Qed.

(** ** Direct calls of [_allocation] *)


Lemma dict_setitem_same {V : Type} (f : Timestamp -> V)
  (d : list (Timestamp * V)) (k : Timestamp) :
  (forall k' v', In (k', v') d -> v' = f k') ->
  In k (dict_keys d) -> dict_setitem d k (f k) = d.
Proof.
  induction d as [|[k' v'] d IH]; simpl; intros Hf Hin; [destruct Hin|].
  destruct (Z.eqb_spec k' k) as [->|Hne].
  - rewrite (Hf k v') by (left; reflexivity). reflexivity.
  - f_equal. apply IH.
    + intros k0 v0 H0. apply Hf. right. assumption.
    + destruct Hin as [Heq|Hin]; [congruence|assumption].
Qed.

Lemma dict_comprehension_first_occurrences {V : Type} (f : Timestamp -> V)
  (keys : list Timestamp) :
  forall (acc : list (Timestamp * V)) (seen : list Timestamp),
    (forall k, In k seen <-> In k (dict_keys acc)) ->
    (forall k v, In (k, v) acc -> v = f k) ->
    dict_comprehension (fun k => Ok (f k)) keys acc
    = Ok (acc ++ map (fun k => (k, f k)) (first_occurrences_from seen keys)).
Proof.
  induction keys as [|x keys IH]; intros acc seen Hseen Hf; simpl.
  - rewrite app_nil_r. reflexivity.
  - destruct (in_dec Z.eq_dec x seen) as [Hin|Hnin].
    + rewrite dict_setitem_same by (try assumption; apply Hseen; assumption).
      apply IH; assumption.
    + rewrite dict_setitem_fresh by (rewrite <- Hseen; assumption).
      rewrite (IH (acc ++ [(x, f x)]) (x :: seen)).
      * rewrite <- app_assoc. reflexivity.
      * intros k. unfold dict_keys. rewrite map_app, in_app_iff. simpl.
        fold (dict_keys acc). rewrite <- Hseen. tauto.
      * intros k v Hkv. apply in_app_iff in Hkv.
        destruct Hkv as [Hkv|[Heq|[]]]; [apply Hf; assumption|].
        injection Heq as <- <-. reflexivity.
Qed.

(** X12. [_allocation] of a single-date stage, called with dates that
    repeat: the dict of the per-date results has each date once, so the
    table has the rows of each date once, the dates in the order of their
    first occurrence. *)
Theorem single_date_stage_repeated_dates
  (f : Timestamp -> Series) (dates : list Timestamp) :
  dates <> [] ->
  _allocation (SingleDateStage (fun d => Ok (f d))) dates
  = Ok (flat_map (fun d => pd.tag_rows (d, f d)) (first_occurrences dates)).
Proof.
  intros Hne. simpl. unfold OneAllocationMixin_allocation.
  rewrite (dict_comprehension_first_occurrences f dates [] [])
    by (simpl; tauto).
  simpl. fold (first_occurrences dates).
  destruct dates as [|d ds]; [congruence|].
  unfold first_occurrences. simpl.
  f_equal. f_equal.
  rewrite flat_map_concat_map, map_map, <- flat_map_concat_map. reflexivity.
Qed.

Lemma single_date_stage_repeated_dates_witness :
  _allocation (SingleDateStage (fun d => Ok (static_rows_series d)))
    [ts_2022_08_02; ts_2022_08_01; ts_2022_08_02]
  = Ok (flat_map (fun d => pd.tag_rows (d, static_rows_series d))
          (first_occurrences [ts_2022_08_02; ts_2022_08_01; ts_2022_08_02])).
Proof.
  apply (single_date_stage_repeated_dates static_rows_series
           [ts_2022_08_02; ts_2022_08_01; ts_2022_08_02]).
  discriminate.
Defined.
